(** * The refinery Engineer: merge-queue processing agent

    A shallow embedding of [internal/refinery/engineer.go] and the
    properties of its configuration resolver, scheduler loop, claim
    manager and failure handler. *)

From Stdlib Require Import ZArith Lia Bool List String Ascii.
From Stdlib Require Import Floats.SpecFloat.
Import ListNotations.

Local Open Scope string_scope.
Local Open Scope list_scope.
Local Open Scope Z_scope.

(** String concatenation, Go's [+] on strings. *)
Infix "+++" := String.append (right associativity, at level 60).

(** ** Go values shared by the whole development *)

(** The newline byte and the double quote byte, which string literals
    below do not spell out. *)
Definition nl : string := String (ascii_of_nat 10) EmptyString.
Definition dquote : string := String (ascii_of_nat 34) EmptyString.
Definition backslash : string := String (ascii_of_nat 92) EmptyString.

(** Go's [error] values as they are built in this program:
    [errors.New] / a collaborator's error carries a message;
    [fmt.Errorf] with a [%w] verb keeps the formatted message and the
    wrapped cause. *)
Inductive error : Type :=
| errorString (msg : string)
| wrapError (msg : string) (cause : error).

(** [err.Error()]. *)
Definition error_text (err : error) : string :=
  match err with
  | errorString msg => msg
  | wrapError msg _ => msg
  end.

(** [fmt.Errorf(prefix + "%w", err)]: the message is the prefix followed by
    the cause's text. *)
Definition Errorf_w (prefix : string) (err : error) : error :=
  wrapError (prefix +++ error_text err) err.

(** A Go result pair [(value, error)] with exactly one side set. *)
Inductive result (A : Type) : Type :=
| Ok (a : A)
| Err (err : error).
Arguments Ok {A} a.
Arguments Err {A} err.

(** [s] occurs inside [t]. *)
Definition contains (t s : string) : Prop :=
  exists pre post, t = pre +++ s +++ post.

(** ** Package time: durations *)

Module time.

(** [time.Duration] is an int64 count of nanoseconds. *)
Definition Duration := Z.

Definition Nanosecond : Duration := 1.
Definition Microsecond : Duration := 1000 * Nanosecond.
Definition Millisecond : Duration := 1000 * Microsecond.
Definition Second : Duration := 1000 * Millisecond.
Definition Minute : Duration := 60 * Second.
Definition Hour : Duration := 60 * Minute.

(** uint64 and int64 wrap-around. *)
Definition u64 (z : Z) : Z := z mod 2 ^ 64.
Definition i64 (z : Z) : Z := (z + 2 ^ 63) mod 2 ^ 64 - 2 ^ 63.

(** float64 arithmetic (IEEE 754 binary64, round to nearest even). *)
Definition float64 := spec_float.
Definition f64_of_Z (z : Z) : float64 := binary_normalize 53 1024 z 0 false.
Definition f64_mul : float64 -> float64 -> float64 := SFmul 53 1024.
Definition f64_div : float64 -> float64 -> float64 := SFdiv 53 1024.

(** [uint64(x)] for a float64 [x]: truncation toward zero. *)
Definition u64_of_f64 (x : float64) : Z :=
  match x with
  | S754_finite false m e =>
      u64 (if 0 <=? e then Z.pos m * 2 ^ e else Z.pos m / 2 ^ (- e))
  | _ => 0
  end.

Definition byte_of (c : ascii) : Z := Z.of_nat (nat_of_ascii c).
Definition is_digit (c : ascii) : bool :=
  (48 <=? byte_of c) && (byte_of c <=? 57).
Definition is_dot (c : ascii) : bool := byte_of c =? 46.

Definition lowerhex (n : Z) : string :=
  match String.get (Z.to_nat n) "0123456789abcdef" with
  | Some c => String c EmptyString
  | None => EmptyString
  end.

(** [quote]: the package's own quoting of a string in an error message.
    Bytes outside printable ASCII are written as [\xNN]. *)
Fixpoint quote_bytes (s : string) : string :=
  match s with
  | EmptyString => EmptyString
  | String c s' =>
      let b := byte_of c in
      (if (128 <=? b) || (b <? 32)
       then backslash +++ "x" +++ lowerhex (b / 16) +++ lowerhex (b mod 16)
       else if (b =? 34) || (b =? 92)
            then backslash +++ String c EmptyString
            else String c EmptyString) +++ quote_bytes s'
  end.
Definition quote (s : string) : string := dquote +++ quote_bytes s +++ dquote.

(** [leadingInt]: the leading [[0-9]*] of [s] as a uint64; [None] is
    [errLeadingInt] (overflow). *)
Fixpoint leadingInt_from (x : Z) (s : string) : option (Z * string) :=
  match s with
  | EmptyString => Some (x, EmptyString)
  | String c s' =>
      if is_digit c then
        if x >? 2 ^ 63 / 10 then None
        else
          let x' := u64 (x * 10 + byte_of c - 48) in
          if x' >? 2 ^ 63 then None else leadingInt_from x' s'
      else Some (x, s)
  end.
Definition leadingInt (s : string) : option (Z * string) :=
  leadingInt_from 0 s.

(** [leadingFraction]: the leading [[0-9]*] of [s] as the numerator [x]
    and the power of ten [scale]; digits past what uint64 holds are
    consumed and dropped. *)
Fixpoint leadingFraction_from (x : Z) (scale : float64) (overflow : bool)
         (s : string) : Z * float64 * string :=
  match s with
  | EmptyString => (x, scale, EmptyString)
  | String c s' =>
      if is_digit c then
        if overflow then leadingFraction_from x scale true s'
        else if x >? (2 ^ 63 - 1) / 10
             then leadingFraction_from x scale true s'
             else
               let y := u64 (x * 10 + byte_of c - 48) in
               if y >? 2 ^ 63
               then leadingFraction_from x scale true s'
               else leadingFraction_from y (f64_mul scale (f64_of_Z 10))
                      false s'
      else (x, scale, s)
  end.
Definition leadingFraction (s : string) : Z * float64 * string :=
  leadingFraction_from 0 (f64_of_Z 1) false s.

(** The unit: everything up to the next ['.'] or digit. *)
Fixpoint span_unit (s : string) : string * string :=
  match s with
  | EmptyString => (EmptyString, EmptyString)
  | String c s' =>
      if is_dot c || is_digit c then (EmptyString, s)
      else let '(u, rest) := span_unit s' in (String c u, rest)
  end.

(** The two spellings of the micro sign: U+00B5 and U+03BC, in UTF-8. *)
Definition micro_sign : string :=
  String (ascii_of_nat 194) (String (ascii_of_nat 181) EmptyString).
Definition greek_mu : string :=
  String (ascii_of_nat 206) (String (ascii_of_nat 188) EmptyString).

Definition unitMap (u : string) : option Z :=
  if String.eqb u "ns" then Some Nanosecond
  else if String.eqb u "us" then Some Microsecond
  else if String.eqb u (micro_sign +++ "s") then Some Microsecond
  else if String.eqb u (greek_mu +++ "s") then Some Microsecond
  else if String.eqb u "ms" then Some Millisecond
  else if String.eqb u "s" then Some Second
  else if String.eqb u "m" then Some Minute
  else if String.eqb u "h" then Some Hour
  else None.

Definition invalid_duration (orig : string) : error :=
  errorString ("time: invalid duration " +++ quote orig).

(** One round of the parsing loop: a number, an optional fraction and a
    unit are taken off the front of [s] and added to [d]. *)
Definition parse_term (orig s : string) (d : Z) : result (Z * string) :=
  match s with
  | EmptyString => Ok (d, EmptyString)
  | String c0 _ =>
      if negb (is_dot c0 || is_digit c0) then Err (invalid_duration orig)
      else
        let pl := String.length s in
        match leadingInt s with
        | None => Err (invalid_duration orig)
        | Some (v, s1) =>
            let pre := negb (Nat.eqb pl (String.length s1)) in
            let '(f, scale, post, s2) :=
              match s1 with
              | String c1 s1' =>
                  if is_dot c1 then
                    let '(f, scale, s2) := leadingFraction s1' in
                    (f, scale,
                     negb (Nat.eqb (String.length s1') (String.length s2)), s2)
                  else (0, f64_of_Z 1, false, s1)
              | EmptyString => (0, f64_of_Z 1, false, s1)
              end in
            if negb pre && negb post then Err (invalid_duration orig)
            else
              let '(u, s3) := span_unit s2 in
              if Nat.eqb (String.length u) 0
              then Err (errorString
                          ("time: missing unit in duration " +++ quote orig))
              else
                match unitMap u with
                | None =>
                    Err (errorString
                           ("time: unknown unit " +++ quote u
                            +++ " in duration " +++ quote orig))
                | Some unit =>
                    if v >? 2 ^ 63 / unit then Err (invalid_duration orig)
                    else
                      let v1 := u64 (v * unit) in
                      let v2 :=
                        if f >? 0
                        then u64 (v1 + u64_of_f64
                                         (f64_mul (f64_of_Z f)
                                            (f64_div (f64_of_Z unit) scale)))
                        else v1 in
                      if (f >? 0) && (v2 >? 2 ^ 63)
                      then Err (invalid_duration orig)
                      else
                        let d' := u64 (d + v2) in
                        if d' >? 2 ^ 63 then Err (invalid_duration orig)
                        else Ok (d', s3)
                end
        end
  end.

(** The loop [for s != ""]; [None] only when [fuel] runs out. *)
Fixpoint parse_loop (fuel : nat) (orig s : string) (d : Z)
  : option (result Z) :=
  match s with
  | EmptyString => Some (Ok d)
  | String _ _ =>
      match fuel with
      | O => None
      | S fuel' =>
          match parse_term orig s d with
          | Err e => Some (Err e)
          | Ok (d', s') => parse_loop fuel' orig s' d'
          end
      end
  end.

(** [time.ParseDuration], with the loop's fuel as an argument. *)
Definition ParseDuration_fuel (fuel : nat) (orig : string)
  : option (result Duration) :=
  let '(neg, s) :=
    match orig with
    | String c s' =>
        if (byte_of c =? 45) || (byte_of c =? 43)
        then (byte_of c =? 45, s')
        else (false, orig)
    | EmptyString => (false, orig)
    end in
  if String.eqb s "0" then Some (Ok 0)
  else if String.eqb s "" then Some (Err (invalid_duration orig))
  else
    match parse_loop fuel orig s 0 with
    | None => None
    | Some (Err e) => Some (Err e)
    | Some (Ok d) =>
        if neg then Some (Ok (i64 (- i64 d)))
        else if d >? 2 ^ 63 - 1 then Some (Err (invalid_duration orig))
             else Some (Ok (i64 d))
    end.

(** [time.ParseDuration(s)]: every round of the loop consumes at least
    one byte, so the length of [s] is fuel enough
    (see [ParseDuration_fuel_enough]). *)
Definition ParseDuration (s : string) : result Duration :=
  match ParseDuration_fuel (String.length s) s with
  | Some r => r
  | None => Err (invalid_duration s)
  end.

(** [fmtInt]: the decimal digits of [v], written in front of [buf]. *)
Fixpoint fmtInt_loop (fuel : nat) (buf : string) (v : Z) : string :=
  match fuel with
  | O => buf
  | S fuel' =>
      if v >? 0
      then fmtInt_loop fuel' (lowerhex (v mod 10) +++ buf) (v / 10)
      else buf
  end.
Definition fmtInt (buf : string) (v : Z) : string :=
  if v =? 0 then "0" +++ buf else fmtInt_loop 20 buf v.

(** [fmtFrac]: [v / 10^prec] with its fraction written in front of [buf],
    trailing zeros and a bare decimal point left out. *)
Fixpoint fmtFrac_loop (prec : nat) (buf : string) (v : Z) (print : bool)
  : string * Z * bool :=
  match prec with
  | O => (buf, v, print)
  | S prec' =>
      let digit := v mod 10 in
      let print := print || negb (digit =? 0) in
      fmtFrac_loop prec' (if print then lowerhex digit +++ buf else buf)
                   (v / 10) print
  end.
Definition fmtFrac (buf : string) (v : Z) (prec : nat) : string * Z :=
  let '(buf, v, print) := fmtFrac_loop prec buf v false in
  (if print then "." +++ buf else buf, v).

(** [Duration.String]: the form [72h3m0.5s], smaller units below a
    second. *)
Definition Duration_String (d : Duration) : string :=
  let neg := d <? 0 in
  let u := if neg then u64 (- u64 d) else u64 d in
  let body :=
    if u <? Second then
      if u =? 0 then "0s"
      else
        let '(suffix, prec) :=
          if u <? Microsecond then ("ns", 0%nat)
          else if u <? Millisecond then (micro_sign +++ "s", 3%nat)
               else ("ms", 6%nat) in
        let '(buf, u) := fmtFrac suffix u prec in
        fmtInt buf u
    else
      let '(buf, u) := fmtFrac "s" u 9 in
      let buf := fmtInt buf (u mod 60) in
      let u := u / 60 in
      if u >? 0 then
        let buf := fmtInt ("m" +++ buf) (u mod 60) in
        let u := u / 60 in
        if u >? 0 then fmtInt ("h" +++ buf) u else buf
      else buf in
  if neg then "-" +++ body else body.

End time.

(** ** Package beads: the issue tracker, seen from the engine *)

Module beads.

(** Modelled from the spec: [beads.Issue] is declared in package beads.
    A work item has an identifier, a title, a status among [open],
    [in_progress] and [closed], a priority and a description block. *)
Record Issue : Type := {
  ID : string;
  Title : string;
  Description : string;
  Status : string;
  Priority : Z
}.

(** Modelled from the spec: [beads.UpdateOptions], a partial-field
    update; the engine only ever sets the status ([None] leaves it). *)
Module UpdateOptions.
Record t : Type := { Status : option string }.
End UpdateOptions.

(** [beads.UpdateOptions{Status: &s}]. *)
Definition with_status (s : string) : UpdateOptions.t :=
  {| UpdateOptions.Status := Some s |}.

(** Modelled from the spec: [beads.MRFields], the key/value block of a
    merge request's description. *)
Record MRFields : Type := {
  Branch : string;
  Target : string;
  Worker : string
}.

(** The tracker operations the engine consumes, over the tracker's own
    state [T]: [ReadyWithType], [Update] and [CloseWithReason].  An
    [option error] is Go's [error] return, [None] being [nil]. *)
Class Tracker (T : Type) : Type := {
  ReadyWithType : string -> T -> result (list Issue) * T;
  Update : string -> UpdateOptions.t -> T -> option error * T;
  CloseWithReason : string -> list string -> T -> option error * T
}.

End beads.

Import beads.

(** ** Package rig *)

Module rig.
(** Modelled from the spec: [rig.Rig], the repository context; the
    engine reads its name and its path. *)
Record Rig : Type := { Name : string; Path : string }.
End rig.

(** ** MergeQueueConfig *)

Record MergeQueueConfig : Type := {
  Enabled : bool;
  TargetBranch : string;
  IntegrationBranches : bool;
  OnConflict : string;
  RunTests : bool;
  TestCommand : string;
  DeleteMergedBranches : bool;
  RetryFlakyTests : Z;
  PollInterval : time.Duration;
  MaxConcurrent : Z
}.

Definition DefaultMergeQueueConfig : MergeQueueConfig := {|
  Enabled := true;
  TargetBranch := "main";
  IntegrationBranches := true;
  OnConflict := "assign_back";
  RunTests := true;
  TestCommand := "";
  DeleteMergedBranches := true;
  RetryFlakyTests := 1;
  PollInterval := 30 * time.Second;
  MaxConcurrent := 1
|}.

(** The anonymous struct [mqRaw] of [LoadConfig]: every key of the
    [merge_queue] section behind a pointer, [None] being [nil]. *)
Module mqRaw.
Record t : Type := {
  Enabled : option bool;
  TargetBranch : option string;
  IntegrationBranches : option bool;
  OnConflict : option string;
  RunTests : option bool;
  TestCommand : option string;
  DeleteMergedBranches : option bool;
  RetryFlakyTests : option Z;
  PollInterval : option string;
  MaxConcurrent : option Z
}.
End mqRaw.

(** ** What the engine takes from the Go library and the file system *)

(** [bytes] is [[]byte]: the contents of a file and a [json.RawMessage].
    [json_Unmarshal_rawConfig data] is [json.Unmarshal(data, &rawConfig)]
    followed by reading [rawConfig.MergeQueue] ([None] being [nil]);
    [json_Unmarshal_mqRaw] is [json.Unmarshal(rawConfig.MergeQueue, &mqRaw)]. *)
Class Env : Type := {
  bytes : Type;
  filepath_Join : string -> string -> string;
  os_ReadFile : string -> result bytes;
  os_IsNotExist : error -> bool;
  json_Unmarshal_rawConfig : bytes -> result (option bytes);
  json_Unmarshal_mqRaw : bytes -> result mqRaw.t;
  strconv_Quote : string -> string;
  ParseMRFields : Issue -> option MRFields
}.

(** ** Channels, panics and observable events *)

(** A [chan struct{}] that is only ever closed. *)
Inductive chan : Type := chan_open | chan_closed.

(** A call either returns or panics. *)
Inductive outcome (A : Type) : Type :=
| Returns (a : A)
| Panics (msg : string).
Arguments Returns {A} a.
Arguments Panics {A} msg.

(** The builtin [close(ch)]. *)
Definition close (ch : chan) : outcome chan :=
  match ch with
  | chan_open => Returns chan_closed
  | chan_closed => Panics "close of closed channel"
  end.

(** [context.Context] as a call observes it: whether [ctx.Done()] is
    closed at that moment. *)
Record Context : Type := { Done : bool }.

(** What a cycle does to the outside, in the order it does it.
    [EvProcessMR] marks the entry into the pipeline. *)
Inductive Event : Type :=
| EvReadyWithType (type : string)
| EvUpdate (id : string) (opts : UpdateOptions.t)
| EvCloseWithReason (reason : string) (ids : list string)
| EvPrint (text : string)
| EvProcessMR (id : string)
| EvNewTicker (d : time.Duration)
| EvTickerStop.

(** Tracker mutations: the calls that can change an item. *)
Definition is_mutation (ev : Event) : bool :=
  match ev with
  | EvUpdate _ _ | EvCloseWithReason _ _ => true
  | _ => false
  end.

Definition is_close (ev : Event) : bool :=
  match ev with EvCloseWithReason _ _ => true | _ => false end.

Definition is_pipeline (ev : Event) : bool :=
  match ev with EvProcessMR _ => true | _ => false end.

Definition is_print (ev : Event) : bool :=
  match ev with EvPrint _ => true | _ => false end.

Definition count_events (p : Event -> bool) (evs : list Event) : nat :=
  List.length (List.filter p evs).

(** ** The cycle monad: tracker state and the events emitted *)

Definition M (T A : Type) : Type := T -> A * T * list Event.

Definition ret {T A} (a : A) : M T A := fun t => (a, t, []).

Definition bind {T A B} (m : M T A) (k : A -> M T B) : M T B :=
  fun t =>
    let '(a, t1, evs1) := m t in
    let '(b, t2, evs2) := k a t1 in
    (b, t2, evs1 ++ evs2).

Notation "x <- m ;; k" := (bind m (fun x => k))
  (at level 61, m at next level, right associativity).
Notation "m ;;; k" := (bind m (fun _ => k))
  (at level 61, right associativity).

Definition emit {T} (ev : Event) : M T unit := fun t => (tt, t, [ev]).

(** [fmt.Printf] / [fmt.Println] with the text already formatted. *)
Definition print {T} (text : string) : M T unit := emit (EvPrint text).

(** ** The Engineer *)

Record Engineer : Type := {
  rig_ : rig.Rig;
  beads_ : string;
  config : MergeQueueConfig;
  workDir : string;
  stopCh : chan
}.

(** [beads.New(r.Path)] is the handle on the tracker rooted at that path;
    the tracker's state is threaded by the cycle monad. *)
Definition NewEngineer (r : rig.Rig) : Engineer := {|
  rig_ := r;
  beads_ := rig.Path r;
  config := DefaultMergeQueueConfig;
  workDir := rig.Path r;
  stopCh := chan_open
|}.

(** In-place assignments to the fields of [e.config] and of [e]. *)
Definition set_Enabled (v : bool) (c : MergeQueueConfig) :=
  {| Enabled := v; TargetBranch := TargetBranch c;
     IntegrationBranches := IntegrationBranches c; OnConflict := OnConflict c;
     RunTests := RunTests c; TestCommand := TestCommand c;
     DeleteMergedBranches := DeleteMergedBranches c;
     RetryFlakyTests := RetryFlakyTests c; PollInterval := PollInterval c;
     MaxConcurrent := MaxConcurrent c |}.
Definition set_TargetBranch (v : string) (c : MergeQueueConfig) :=
  {| Enabled := Enabled c; TargetBranch := v;
     IntegrationBranches := IntegrationBranches c; OnConflict := OnConflict c;
     RunTests := RunTests c; TestCommand := TestCommand c;
     DeleteMergedBranches := DeleteMergedBranches c;
     RetryFlakyTests := RetryFlakyTests c; PollInterval := PollInterval c;
     MaxConcurrent := MaxConcurrent c |}.
Definition set_IntegrationBranches (v : bool) (c : MergeQueueConfig) :=
  {| Enabled := Enabled c; TargetBranch := TargetBranch c;
     IntegrationBranches := v; OnConflict := OnConflict c;
     RunTests := RunTests c; TestCommand := TestCommand c;
     DeleteMergedBranches := DeleteMergedBranches c;
     RetryFlakyTests := RetryFlakyTests c; PollInterval := PollInterval c;
     MaxConcurrent := MaxConcurrent c |}.
Definition set_OnConflict (v : string) (c : MergeQueueConfig) :=
  {| Enabled := Enabled c; TargetBranch := TargetBranch c;
     IntegrationBranches := IntegrationBranches c; OnConflict := v;
     RunTests := RunTests c; TestCommand := TestCommand c;
     DeleteMergedBranches := DeleteMergedBranches c;
     RetryFlakyTests := RetryFlakyTests c; PollInterval := PollInterval c;
     MaxConcurrent := MaxConcurrent c |}.
Definition set_RunTests (v : bool) (c : MergeQueueConfig) :=
  {| Enabled := Enabled c; TargetBranch := TargetBranch c;
     IntegrationBranches := IntegrationBranches c; OnConflict := OnConflict c;
     RunTests := v; TestCommand := TestCommand c;
     DeleteMergedBranches := DeleteMergedBranches c;
     RetryFlakyTests := RetryFlakyTests c; PollInterval := PollInterval c;
     MaxConcurrent := MaxConcurrent c |}.
Definition set_TestCommand (v : string) (c : MergeQueueConfig) :=
  {| Enabled := Enabled c; TargetBranch := TargetBranch c;
     IntegrationBranches := IntegrationBranches c; OnConflict := OnConflict c;
     RunTests := RunTests c; TestCommand := v;
     DeleteMergedBranches := DeleteMergedBranches c;
     RetryFlakyTests := RetryFlakyTests c; PollInterval := PollInterval c;
     MaxConcurrent := MaxConcurrent c |}.
Definition set_DeleteMergedBranches (v : bool) (c : MergeQueueConfig) :=
  {| Enabled := Enabled c; TargetBranch := TargetBranch c;
     IntegrationBranches := IntegrationBranches c; OnConflict := OnConflict c;
     RunTests := RunTests c; TestCommand := TestCommand c;
     DeleteMergedBranches := v;
     RetryFlakyTests := RetryFlakyTests c; PollInterval := PollInterval c;
     MaxConcurrent := MaxConcurrent c |}.
Definition set_RetryFlakyTests (v : Z) (c : MergeQueueConfig) :=
  {| Enabled := Enabled c; TargetBranch := TargetBranch c;
     IntegrationBranches := IntegrationBranches c; OnConflict := OnConflict c;
     RunTests := RunTests c; TestCommand := TestCommand c;
     DeleteMergedBranches := DeleteMergedBranches c;
     RetryFlakyTests := v; PollInterval := PollInterval c;
     MaxConcurrent := MaxConcurrent c |}.
Definition set_PollInterval (v : time.Duration) (c : MergeQueueConfig) :=
  {| Enabled := Enabled c; TargetBranch := TargetBranch c;
     IntegrationBranches := IntegrationBranches c; OnConflict := OnConflict c;
     RunTests := RunTests c; TestCommand := TestCommand c;
     DeleteMergedBranches := DeleteMergedBranches c;
     RetryFlakyTests := RetryFlakyTests c; PollInterval := v;
     MaxConcurrent := MaxConcurrent c |}.
Definition set_MaxConcurrent (v : Z) (c : MergeQueueConfig) :=
  {| Enabled := Enabled c; TargetBranch := TargetBranch c;
     IntegrationBranches := IntegrationBranches c; OnConflict := OnConflict c;
     RunTests := RunTests c; TestCommand := TestCommand c;
     DeleteMergedBranches := DeleteMergedBranches c;
     RetryFlakyTests := RetryFlakyTests c; PollInterval := PollInterval c;
     MaxConcurrent := v |}.

Definition with_config (c : MergeQueueConfig) (e : Engineer) : Engineer :=
  {| rig_ := rig_ e; beads_ := beads_ e; config := c;
     workDir := workDir e; stopCh := stopCh e |}.
Definition with_stopCh (ch : chan) (e : Engineer) : Engineer :=
  {| rig_ := rig_ e; beads_ := beads_ e; config := config e;
     workDir := workDir e; stopCh := ch |}.

(** [if p != nil { field = *p }]. *)
Definition apply_opt {A} (p : option A)
           (set : A -> MergeQueueConfig -> MergeQueueConfig)
           (c : MergeQueueConfig) : MergeQueueConfig :=
  match p with
  | Some v => set v c
  | None => c
  end.

(** [ProcessResult]: the result of processing a merge request. *)
Record ProcessResult : Type := {
  Success : bool;
  MergeCommit : string;
  Error : string;
  Conflict : bool;
  TestsFailed : bool
}.

(** What wakes the [select] of [Run]: the context's cancellation, the stop
    channel, or a tick (with the context as the cycle it starts sees it). *)
Inductive Wakeup : Type :=
| wake_ctx_done
| wake_stop
| wake_tick (ctx : Context).

(** How a call of [Run] ends within the wake-ups it is given. *)
Inductive RunOutcome : Type :=
| Returned (err : option error)
| Panicked (msg : string)
| Waiting.

Section Engine.

Context {env : Env} {T : Type} {tracker : Tracker T}.

(** *** LoadConfig *)

(** The assignments of [LoadConfig] from a decoded section, in the
    source's order, up to [poll_interval]. *)
Definition apply_mqRaw (raw : mqRaw.t) (c : MergeQueueConfig)
  : MergeQueueConfig :=
  let c := apply_opt (mqRaw.Enabled raw) set_Enabled c in
  let c := apply_opt (mqRaw.TargetBranch raw) set_TargetBranch c in
  let c := apply_opt (mqRaw.IntegrationBranches raw)
             set_IntegrationBranches c in
  let c := apply_opt (mqRaw.OnConflict raw) set_OnConflict c in
  let c := apply_opt (mqRaw.RunTests raw) set_RunTests c in
  let c := apply_opt (mqRaw.TestCommand raw) set_TestCommand c in
  let c := apply_opt (mqRaw.DeleteMergedBranches raw)
             set_DeleteMergedBranches c in
  let c := apply_opt (mqRaw.RetryFlakyTests raw) set_RetryFlakyTests c in
  let c := apply_opt (mqRaw.MaxConcurrent raw) set_MaxConcurrent c in
  c.

(** [LoadConfig]: the error returned and the engineer afterwards
    ([e.config] is assigned in place). *)
Definition LoadConfig (e : Engineer) : option error * Engineer :=
  let configPath := filepath_Join (rig.Path (rig_ e)) "config.json" in
  match os_ReadFile configPath with
  | Err err =>
      if os_IsNotExist err then (None, e)
      else (Some (Errorf_w "reading config: " err), e)
  | Ok data =>
      match json_Unmarshal_rawConfig data with
      | Err err => (Some (Errorf_w "parsing config: " err), e)
      | Ok None => (None, e)
      | Ok (Some MergeQueue) =>
          match json_Unmarshal_mqRaw MergeQueue with
          | Err err => (Some (Errorf_w "parsing merge_queue config: " err), e)
          | Ok raw =>
              let c := apply_mqRaw raw (config e) in
              match mqRaw.PollInterval raw with
              | Some s =>
                  match time.ParseDuration s with
                  | Err err =>
                      (Some (Errorf_w ("invalid poll_interval "
                                       +++ strconv_Quote s +++ ": ") err),
                       with_config c e)
                  | Ok dur => (None, with_config (set_PollInterval dur c) e)
                  end
              | None => (None, with_config c e)
              end
          end
      end
  end.

(** [Config]. *)
Definition Config (e : Engineer) : MergeQueueConfig := config e.

(** *** The tracker calls, as steps of the cycle monad *)

Definition call_ReadyWithType (type : string) : M T (result (list Issue)) :=
  fun t => let '(r, t') := ReadyWithType type t in
           (r, t', [EvReadyWithType type]).

Definition call_Update (id : string) (opts : UpdateOptions.t)
  : M T (option error) :=
  fun t => let '(r, t') := Update id opts t in (r, t', [EvUpdate id opts]).

Definition call_CloseWithReason (reason : string) (ids : list string)
  : M T (option error) :=
  fun t => let '(r, t') := CloseWithReason reason ids t in
           (r, t', [EvCloseWithReason reason ids]).

(** *** ProcessMR and handleFailure *)

Definition ProcessMR (e : Engineer) (ctx : Context) (mr : Issue)
  : M T ProcessResult :=
  emit (EvProcessMR (ID mr)) ;;;
  match ParseMRFields mr with
  | None =>
      ret {| Success := false; MergeCommit := "";
             Error := "no MR fields found in description";
             Conflict := false; TestsFailed := false |}
  | Some mrFields =>
      print ("[Engineer] Would process:" +++ nl) ;;;
      print ("  Branch: " +++ Branch mrFields +++ nl) ;;;
      print ("  Target: " +++ Target mrFields +++ nl) ;;;
      print ("  Worker: " +++ Worker mrFields +++ nl) ;;;
      ret {| Success := false; MergeCommit := "";
             Error := "ProcessMR not fully implemented (see gt-3x1.2)";
             Conflict := false; TestsFailed := false |}
  end.

Definition handleFailure (e : Engineer) (mr : Issue) (result : ProcessResult)
  : M T unit :=
  err <- call_Update (ID mr) (with_status "open") ;;
  match err with
  | Some err =>
      print ("[Engineer] Warning: failed to reopen MR " +++ ID mr +++ ": "
             +++ error_text err +++ nl)
  | None => ret tt
  end ;;;
  print ("[Engineer] ✗ Failed: " +++ ID mr +++ " - " +++ Error result +++ nl).

(** *** processOnce *)

(** One iteration of the loop, over the pipeline it delegates to
    ([e.ProcessMR] in [processOnce]). *)
Definition processOnceWith
           (pipeline : Engineer -> Context -> Issue -> M T ProcessResult)
           (e : Engineer) (ctx : Context) : M T (option error) :=
  if Done ctx then ret None
  else
    ready <- call_ReadyWithType "merge-request" ;;
    match ready with
    | Err err => ret (Some (Errorf_w "querying ready merge-requests: " err))
    | Ok [] => ret None
    | Ok (mr :: _) =>
        print ("[Engineer] Processing: " +++ ID mr +++ " (" +++ Title mr
               +++ ")" +++ nl) ;;;
        err <- call_Update (ID mr) (with_status "in_progress") ;;
        match err with
        | Some err =>
            ret (Some (Errorf_w ("claiming MR " +++ ID mr +++ ": ") err))
        | None =>
            result <- pipeline e ctx mr ;;
            (if Success result then
               let reason := "merged: " +++ MergeCommit result in
               err <- call_CloseWithReason reason [ID mr] ;;
               match err with
               | Some err =>
                   print ("[Engineer] Warning: failed to close MR " +++ ID mr
                          +++ ": " +++ error_text err +++ nl)
               | None => ret tt
               end ;;;
               print ("[Engineer] ✓ Merged: " +++ ID mr +++ nl)
             else handleFailure e mr result) ;;;
            ret None
        end
    end.

Definition processOnce : Engineer -> Context -> M T (option error) :=
  processOnceWith ProcessMR.

(** *** Run and Stop *)

(** [if err := e.processOnce(ctx); err != nil { Printf(...) }]. *)
Definition run_cycle (e : Engineer) (ctx : Context) : M T unit :=
  err <- processOnce e ctx ;;
  match err with
  | Some err => print ("[Engineer] Error: " +++ error_text err +++ nl)
  | None => ret tt
  end.

(** The [for { select { ... } }] of [Run], over the wake-ups that reach
    it; the deferred [ticker.Stop()] runs on return. *)
Fixpoint run_loop (e : Engineer) (wakeups : list Wakeup) : M T RunOutcome :=
  match wakeups with
  | [] => ret Waiting
  | wake_ctx_done :: _ =>
      print ("[Engineer] Shutting down (context cancelled)" +++ nl) ;;;
      emit EvTickerStop ;;;
      ret (Returned None)
  | wake_stop :: _ =>
      print ("[Engineer] Shutting down (stop signal)" +++ nl) ;;;
      emit EvTickerStop ;;;
      ret (Returned None)
  | wake_tick ctx :: wakeups' =>
      run_cycle e ctx ;;;
      run_loop e wakeups'
  end.

(** [Run]: [ctx] is the context as the first cycle sees it.
    [time.NewTicker] panics on a non-positive interval. *)
Definition Run (e : Engineer) (ctx : Context) (wakeups : list Wakeup)
  : M T (RunOutcome * Engineer) :=
  let '(err, e) := LoadConfig e in
  match err with
  | Some err => ret (Returned (Some (Errorf_w "loading config: " err)), e)
  | None =>
      if negb (Enabled (config e)) then
        ret (Returned
               (Some (errorString "merge queue is disabled in configuration")),
             e)
      else
        print ("[Engineer] Starting for rig " +++ rig.Name (rig_ e)
               +++ " (poll_interval="
               +++ time.Duration_String (PollInterval (config e)) +++ ")"
               +++ nl) ;;;
        if PollInterval (config e) <=? 0 then
          ret (Panicked "non-positive interval for NewTicker", e)
        else
          emit (EvNewTicker (PollInterval (config e))) ;;;
          run_cycle e ctx ;;;
          out <- run_loop e wakeups ;;
          ret (out, e)
  end.

End Engine.

(** [Stop]: [close(e.stopCh)]. *)
Definition Stop (e : Engineer) : outcome Engineer :=
  match close (stopCh e) with
  | Returns ch => Returns (with_stopCh ch e)
  | Panics msg => Panics msg
  end.

(** ** The sparse-override law, in the specification's words *)

(** A key that is specified overrides its default; a key that is not keeps
    it. *)
Definition or_default {A} (specified : option A) (default : A) : A :=
  match specified with
  | Some v => v
  | None => default
  end.

(** The configuration the law prescribes for a decoded section whose
    [poll_interval], if any, parsed to [interval]. *)
Definition sparse_override (raw : mqRaw.t) (interval : option time.Duration)
  : MergeQueueConfig := {|
  Enabled := or_default (mqRaw.Enabled raw) true;
  TargetBranch := or_default (mqRaw.TargetBranch raw) "main";
  IntegrationBranches := or_default (mqRaw.IntegrationBranches raw) true;
  OnConflict := or_default (mqRaw.OnConflict raw) "assign_back";
  RunTests := or_default (mqRaw.RunTests raw) true;
  TestCommand := or_default (mqRaw.TestCommand raw) "";
  DeleteMergedBranches := or_default (mqRaw.DeleteMergedBranches raw) true;
  RetryFlakyTests := or_default (mqRaw.RetryFlakyTests raw) 1;
  PollInterval := or_default interval (30 * time.Second);
  MaxConcurrent := or_default (mqRaw.MaxConcurrent raw) 1
|}.

(** ** A reference tracker and a reference environment

    An in-memory tracker with scripted faults and a file system of parsed
    documents: the collaborators the engine is run against in the worked
    cycles below. *)

Module Reference.

(** The tracker's store, in ready order, and for each coming call
    whether it fails. *)
Record Mem : Type := { items : list Issue; faults : list bool }.

Definition next_fault (st : Mem) : bool * Mem :=
  match faults st with
  | [] => (false, st)
  | f :: fs => (f, {| items := items st; faults := fs |})
  end.

Definition set_status (s : string) (i : Issue) : Issue :=
  {| ID := ID i; Title := Title i; Description := Description i;
     Status := s; Priority := Priority i |}.

Definition has_id (id : string) (i : Issue) : bool := String.eqb (ID i) id.

Definition status_of (st : Mem) (id : string) : option string :=
  option_map Status (List.find (has_id id) (items st)).

Definition mem_ReadyWithType (type : string) (st : Mem)
  : result (list Issue) * Mem :=
  let '(fails, st) := next_fault st in
  if fails then (Err (errorString "bd ready: tracker unavailable"), st)
  else (Ok (List.filter (fun i => String.eqb (Status i) "open") (items st)),
        st).

Definition mem_Update (id : string) (opts : UpdateOptions.t) (st : Mem)
  : option error * Mem :=
  let '(fails, st) := next_fault st in
  if fails then (Some (errorString "bd update: tracker unavailable"), st)
  else if List.existsb (has_id id) (items st) then
         (None,
          {| items :=
               List.map (fun i => if has_id id i
                                  then match UpdateOptions.Status opts with
                                       | Some s => set_status s i
                                       | None => i
                                       end
                                  else i) (items st);
             faults := faults st |})
       else (Some (errorString ("bd update: no issue " +++ id)), st).

Definition mem_CloseWithReason (reason : string) (ids : list string)
           (st : Mem) : option error * Mem :=
  let '(fails, st) := next_fault st in
  if fails then (Some (errorString "bd close: tracker unavailable"), st)
  else (None,
        {| items :=
             List.map (fun i => if List.existsb (String.eqb (ID i)) ids
                                then set_status "closed" i else i) (items st);
           faults := faults st |}).

#[export] Instance MemTracker : Tracker Mem := {|
  ReadyWithType := mem_ReadyWithType;
  Update := mem_Update;
  CloseWithReason := mem_CloseWithReason
|}.

(** Configuration documents as parsed trees. *)
#[local] Unset Elimination Schemes.
Inductive json : Type :=
| JNull
| JBool (b : bool)
| JNumber (n : Z)
| JString (s : string)
| JObject (fields : list (string * json)).
#[local] Set Elimination Schemes.

(** The value of the last field named [key]. *)
Definition field (key : string) (fields : list (string * json))
  : option json :=
  option_map snd
    (List.find (fun kv => String.eqb (fst kv) key) (List.rev fields)).

Definition type_error (key : string) : error :=
  errorString ("json: cannot unmarshal into Go struct field " +++ key).

Definition as_bool (key : string) (fields : list (string * json))
  : result (option bool) :=
  match field key fields with
  | None | Some JNull => Ok None
  | Some (JBool b) => Ok (Some b)
  | Some _ => Err (type_error key)
  end.

Definition as_string (key : string) (fields : list (string * json))
  : result (option string) :=
  match field key fields with
  | None | Some JNull => Ok None
  | Some (JString s) => Ok (Some s)
  | Some _ => Err (type_error key)
  end.

Definition as_int (key : string) (fields : list (string * json))
  : result (option Z) :=
  match field key fields with
  | None | Some JNull => Ok None
  | Some (JNumber n) =>
      if (- 2 ^ 63 <=? n) && (n <? 2 ^ 63) then Ok (Some n)
      else Err (type_error key)
  | Some _ => Err (type_error key)
  end.

Definition and_then {A B} (r : result A) (k : A -> result B) : result B :=
  match r with
  | Ok a => k a
  | Err e => Err e
  end.

(** A file holds a parsed document, or bytes that are not JSON. *)
Definition file : Type := option json.

Definition decode_rawConfig (data : file) : result (option file) :=
  match data with
  | None => Err (errorString "invalid character looking for beginning of value")
  | Some JNull => Ok None
  | Some (JObject fields) => Ok (option_map Some (field "merge_queue" fields))
  | Some _ => Err (type_error "rawConfig")
  end.

Definition decode_mqRaw (section : file) : result mqRaw.t :=
  match section with
  | None => Err (errorString "unexpected end of JSON input")
  | Some JNull =>
      Ok (mqRaw.Build_t None None None None None None None None None None)
  | Some (JObject fs) =>
      and_then (as_bool "enabled" fs) (fun enabled =>
      and_then (as_string "target_branch" fs) (fun target_branch =>
      and_then (as_bool "integration_branches" fs) (fun integration =>
      and_then (as_string "on_conflict" fs) (fun on_conflict =>
      and_then (as_bool "run_tests" fs) (fun run_tests =>
      and_then (as_string "test_command" fs) (fun test_command =>
      and_then (as_bool "delete_merged_branches" fs) (fun delete_merged =>
      and_then (as_int "retry_flaky_tests" fs) (fun retry =>
      and_then (as_string "poll_interval" fs) (fun poll_interval =>
      and_then (as_int "max_concurrent" fs) (fun max_concurrent =>
      Ok (mqRaw.Build_t enabled target_branch integration on_conflict
            run_tests test_command delete_merged retry poll_interval
            max_concurrent)))))))))))
  | Some _ => Err (type_error "mqRaw")
  end.

Definition ENOENT : error := errorString "no such file or directory".

(** A file system with at most one file, [config.json] of the rig at
    [root]. *)
Definition read_file (root : string) (content : option file) (path : string)
  : result file :=
  match content with
  | Some data =>
      if String.eqb path (root +++ "/config.json") then Ok data
      else Err (wrapError ("open " +++ path +++ ": no such file or directory")
                          ENOENT)
  | None =>
      Err (wrapError ("open " +++ path +++ ": no such file or directory")
                     ENOENT)
  end.

Definition is_not_exist (err : error) : bool :=
  match err with
  | wrapError _ (errorString msg) =>
      String.eqb msg "no such file or directory"
  | _ => false
  end.

(** The merge-request block of a description, for the worked cycles:
    an item described by ["branch: "] followed by a name carries fields,
    any other does not. *)
Definition parse_mr_fields (mr : Issue) : option MRFields :=
  if String.prefix "branch: " (Description mr)
  then Some {| Branch := String.substring 8 (String.length (Description mr) - 8)
                           (Description mr);
               Target := "main"; Worker := "polecat" |}
  else None.

Definition reference_env (root : string) (content : option file) : Env := {|
  bytes := file;
  filepath_Join := fun dir name => dir +++ "/" +++ name;
  os_ReadFile := read_file root content;
  os_IsNotExist := is_not_exist;
  json_Unmarshal_rawConfig := decode_rawConfig;
  json_Unmarshal_mqRaw := decode_mqRaw;
  strconv_Quote := time.quote;
  ParseMRFields := parse_mr_fields
|}.

(** The rig, the items and the configurations of the worked cycles. *)
Definition gastown : rig.Rig :=
  {| rig.Name := "gastown"; rig.Path := "/rigs/gastown" |}.

Definition mr1 : Issue :=
  {| ID := "gt-101"; Title := "Merge polecat/fix-login";
     Description := "branch: polecat/fix-login"; Status := "open";
     Priority := 1 |}.
Definition mr2 : Issue :=
  {| ID := "gt-102"; Title := "Merge polecat/docs";
     Description := "no fields here"; Status := "open"; Priority := 2 |}.

Definition env0 : Env := reference_env "/rigs/gastown" None.

(** [{"merge_queue": {"target_branch": "release"}}]. *)
Definition doc_release : json :=
  JObject [("merge_queue", JObject [("target_branch", JString "release")])].

Definition doc_poll (s : string) : json :=
  JObject [("merge_queue", JObject [("poll_interval", JString s)])].

Definition doc_disabled : json :=
  JObject [("merge_queue", JObject [("enabled", JBool false)])].

Definition running : Context := {| Done := false |}.

Definition engineer_with (strategy : string) : Engineer :=
  with_config (set_OnConflict strategy DefaultMergeQueueConfig)
              (NewEngineer gastown).

Definition failed : ProcessResult :=
  {| Success := false; MergeCommit := ""; Error := "merge conflict";
     Conflict := true; TestsFailed := false |}.

(** A pipeline that merges: the designed success result. *)
Definition merging_pipeline (e : Engineer) (ctx : Context) (mr : Issue)
  : M Mem ProcessResult :=
  emit (EvProcessMR (ID mr)) ;;;
  ret {| Success := true; MergeCommit := "4f2a9c1"; Error := "";
         Conflict := false; TestsFailed := false |}.

(** Stores: a queue of two ready items, the same queue with the third
    tracker call failing, an empty queue, and the first item claimed with
    the next call failing. *)
Definition queue : Mem := {| items := [mr1; mr2]; faults := [] |}.
Definition queue_third_call_fails : Mem :=
  {| items := [mr1; mr2]; faults := [false; false; true] |}.
Definition queue_claim_fails : Mem :=
  {| items := [mr1; mr2]; faults := [false; true] |}.
Definition drained : Mem :=
  {| items := [set_status "closed" mr1]; faults := [] |}.
Definition claimed_next_call_fails : Mem :=
  {| items := [set_status "in_progress" mr1; mr2]; faults := [true] |}.

Definition env_of (doc : json) : Env :=
  reference_env "/rigs/gastown" (Some (Some doc)).

(** More documents: a section that disables the queue and carries a poll
    interval, and stores whose first call fails. *)
Definition doc_disabled_poll (s : string) : json :=
  JObject [("merge_queue",
            JObject [("enabled", JBool false); ("poll_interval", JString s)])].
Definition queue_query_fails : Mem :=
  {| items := [mr1; mr2]; faults := [true] |}.

End Reference.

(** ** The vocabulary of the properties *)

(** Updates that claim an item: the status is set to [in_progress]. *)
Definition is_claim (ev : Event) : bool :=
  match ev with
  | EvUpdate _ {| UpdateOptions.Status := Some s |} =>
      String.eqb s "in_progress"
  | _ => false
  end.

(** Events that must not come before the claim: tracker mutations and
    pipeline stages. *)
Definition mutates_or_processes (ev : Event) : bool :=
  is_mutation ev || is_pipeline ev.

(** The events of a cycle that claims [mr]: the claim, the reopen update
    and the line printed before the claim. *)
Definition claim_of (mr : Issue) : Event :=
  EvUpdate (ID mr) (with_status "in_progress").
Definition reopen_of (mr : Issue) : Event :=
  EvUpdate (ID mr) (with_status "open").
Definition processing_line (mr : Issue) : Event :=
  EvPrint ("[Engineer] Processing: " +++ ID mr +++ " (" +++ Title mr
           +++ ")" +++ nl).

(** The lines of the failure handler and of the success path. *)
Definition failed_line (mr : Issue) (r : ProcessResult) : Event :=
  EvPrint ("[Engineer] ✗ Failed: " +++ ID mr +++ " - " +++ Error r +++ nl).
Definition reopen_warning (mr : Issue) (err : error) : Event :=
  EvPrint ("[Engineer] Warning: failed to reopen MR " +++ ID mr +++ ": "
           +++ error_text err +++ nl).
Definition close_warning (mr : Issue) (err : error) : Event :=
  EvPrint ("[Engineer] Warning: failed to close MR " +++ ID mr +++ ": "
           +++ error_text err +++ nl).
Definition merged_line (mr : Issue) : Event :=
  EvPrint ("[Engineer] ✓ Merged: " +++ ID mr +++ nl).

(** The events up to and including the claim. *)
Definition claimed_prefix (mr : Issue) : list Event :=
  [EvReadyWithType "merge-request"; processing_line mr; claim_of mr].

(** The path [LoadConfig] reads. *)
Definition configPath {env : Env} (e : Engineer) : string :=
  filepath_Join (rig.Path (rig_ e)) "config.json".

(** The claim of the specification, at one input of the reference tracker:
    after the handler, the item's status is [open]. *)
Definition handler_reopens {env : Env} (e : Engineer) (mr : Issue)
           (r : ProcessResult) (st : Reference.Mem) : Prop :=
  Reference.status_of
    (snd (fst (handleFailure (tracker := Reference.MemTracker) e mr r st)))
    (ID mr)
  = Some "open".

(** The claim of the specification about a claimed item, at one cycle on
    the reference tracker: after the cycle the item is [open] again. *)
Definition cycle_reopens_claimed {env : Env} (e : Engineer) (ctx : Context)
           (mr : Issue) (st : Reference.Mem) : Prop :=
  Reference.status_of
    (snd (fst (processOnce (tracker := Reference.MemTracker) e ctx st)))
    (ID mr)
  = Some "open".

(** The claim of the specification about [auto_rebase], on the events of a
    cycle: the pipeline runs twice, the first submission and the one
    resubmission after the rebase. *)
Definition resubmits_once (evs : list Event) : Prop :=
  count_events is_pipeline evs = 2%nat.

(** The overlay of a decoded section on a configuration [c]: a key that is
    specified has its value, a key that is not keeps the value it has in
    [c]. *)
Definition overlay (raw : mqRaw.t) (interval : option time.Duration)
           (c : MergeQueueConfig) : MergeQueueConfig := {|
  Enabled := or_default (mqRaw.Enabled raw) (Enabled c);
  TargetBranch := or_default (mqRaw.TargetBranch raw) (TargetBranch c);
  IntegrationBranches :=
    or_default (mqRaw.IntegrationBranches raw) (IntegrationBranches c);
  OnConflict := or_default (mqRaw.OnConflict raw) (OnConflict c);
  RunTests := or_default (mqRaw.RunTests raw) (RunTests c);
  TestCommand := or_default (mqRaw.TestCommand raw) (TestCommand c);
  DeleteMergedBranches :=
    or_default (mqRaw.DeleteMergedBranches raw) (DeleteMergedBranches c);
  RetryFlakyTests := or_default (mqRaw.RetryFlakyTests raw) (RetryFlakyTests c);
  PollInterval := or_default interval (PollInterval c);
  MaxConcurrent := or_default (mqRaw.MaxConcurrent raw) (MaxConcurrent c)
|}.

(** More kinds of events: the ready query, the ticker's creation and its
    stop. *)
Definition is_ready (ev : Event) : bool :=
  match ev with EvReadyWithType _ => true | _ => false end.
Definition is_new_ticker (ev : Event) : bool :=
  match ev with EvNewTicker _ => true | _ => false end.
Definition is_ticker_stop (ev : Event) : bool :=
  match ev with EvTickerStop => true | _ => false end.

(** The wake-ups that end [Run]. *)
Definition is_shutdown (w : Wakeup) : bool :=
  match w with
  | wake_ctx_done | wake_stop => true
  | wake_tick _ => false
  end.

(** The contexts of the ticks that come before the first shutdown
    wake-up. *)
Fixpoint ticks_before_shutdown (wakeups : list Wakeup) : list Context :=
  match wakeups with
  | wake_tick ctx :: wakeups' => ctx :: ticks_before_shutdown wakeups'
  | _ => []
  end.

(** The cycles that get past the context check. *)
Definition live_cycles (ctxs : list Context) : nat :=
  List.length (List.filter (fun ctx => negb (Done ctx)) ctxs).

(** The line [Run] prints when it starts. *)
Definition starting_line (e : Engineer) : Event :=
  EvPrint ("[Engineer] Starting for rig " +++ rig.Name (rig_ e)
           +++ " (poll_interval="
           +++ time.Duration_String (PollInterval (config e)) +++ ")"
           +++ nl).

(** * Properties *)

(** ** [time.ParseDuration] always answers *)

Section ParseDurationTotal.

Import time.

Lemma leadingInt_from_length (s : string) :
  forall x v rest,
    leadingInt_from x s = Some (v, rest) ->
    (String.length rest <= String.length s)%nat.
Proof.
  induction s as [|c s IH]; intros x v rest H; cbn [leadingInt_from] in H.
  - injection H as _ <-. apply Nat.le_refl.
  - destruct (is_digit c).
    + destruct (x >? 2 ^ 63 / 10); [discriminate|].
      destruct (u64 (x * 10 + byte_of c - 48) >? 2 ^ 63); [discriminate|].
      apply IH in H. simpl. lia.
    + injection H as _ <-. apply Nat.le_refl.
Qed.

Lemma leadingFraction_from_length (s : string) :
  forall x scale overflow f scale' rest,
    leadingFraction_from x scale overflow s = (f, scale', rest) ->
    (String.length rest <= String.length s)%nat.
Proof.
  induction s as [|c s IH]; intros x scale overflow f scale' rest H;
    cbn [leadingFraction_from] in H.
  - injection H as _ _ <-. apply Nat.le_refl.
  - destruct (is_digit c).
    + assert (String.length rest <= String.length s)%nat; [|simpl; lia].
      destruct overflow; [eauto|].
      destruct (x >? (2 ^ 63 - 1) / 10); [eauto|].
      destruct (u64 (x * 10 + byte_of c - 48) >? 2 ^ 63); eauto.
    + injection H as _ _ <-. apply Nat.le_refl.
Qed.

Lemma span_unit_length (s : string) :
  forall u rest,
    span_unit s = (u, rest) ->
    String.length s = (String.length u + String.length rest)%nat.
Proof.
  induction s as [|c s IH]; intros u rest H; cbn [span_unit] in H.
  - injection H as <- <-. reflexivity.
  - destruct (is_dot c || is_digit c).
    + injection H as <- <-. reflexivity.
    + destruct (span_unit s) as [u' rest'] eqn:E.
      injection H as <- <-. simpl. f_equal. now apply IH.
Qed.

(** A round that succeeds on a non-empty string leaves a shorter one. *)
Lemma parse_term_shorter (orig : string) (c : ascii) (s : string) (d : Z) :
  forall d' s',
    parse_term orig (String c s) d = Ok (d', s') ->
    (String.length s' < String.length (String c s))%nat.
Proof.
  intros d' s' H. unfold parse_term in H.
  destruct (negb (is_dot c || is_digit c)); [discriminate|].
  destruct (leadingInt (String c s)) as [[v s1]|] eqn:EI; [|discriminate].
  apply leadingInt_from_length in EI.
  set (frac := match s1 with
               | String c1 s1' =>
                   if is_dot c1 then
                     let '(f, scale, s2) := leadingFraction s1' in
                     (f, scale,
                      negb (Nat.eqb (String.length s1') (String.length s2)),
                      s2)
                   else (0, f64_of_Z 1, false, s1)
               | EmptyString => (0, f64_of_Z 1, false, s1)
               end) in H.
  assert (Hfrac : (String.length (snd frac) <= String.length s1)%nat).
  { subst frac. destruct s1 as [|c1 s1']; [apply Nat.le_refl|].
    destruct (is_dot c1); [|apply Nat.le_refl].
    destruct (leadingFraction s1') as [[f scale] s2] eqn:EF.
    apply leadingFraction_from_length in EF. simpl. lia. }
  destruct frac as [[[f scale] post] s2]. simpl in Hfrac.
  destruct (negb _ && negb post); [discriminate|].
  destruct (span_unit s2) as [u s3] eqn:EU.
  apply span_unit_length in EU.
  destruct (Nat.eqb (String.length u) 0) eqn:EL; [discriminate|].
  apply Nat.eqb_neq in EL.
  destruct (unitMap u) as [unit|]; [|discriminate].
  destruct (v >? 2 ^ 63 / unit); [discriminate|].
  destruct (_ && _); [discriminate|].
  destruct (_ >? 2 ^ 63); [discriminate|].
  injection H as _ <-. lia.
Qed.

Lemma parse_loop_fuel_enough (fuel : nat) :
  forall orig s d,
    (String.length s <= fuel)%nat -> parse_loop fuel orig s d <> None.
Proof.
  induction fuel as [|fuel IH]; intros orig s d Hlen.
  - destruct s; [discriminate | simpl in Hlen; lia].
  - destruct s as [|c s]; [discriminate|].
    cbn [parse_loop].
    destruct (parse_term orig (String c s) d) as [[d' s']|e] eqn:E;
      [|discriminate].
    apply parse_term_shorter in E. apply IH. lia.
Qed.

(** The length of the string is fuel enough: the loop of
    [ParseDuration] always ends. *)
Lemma ParseDuration_fuel_enough (s : string) :
  ParseDuration_fuel (String.length s) s <> None.
Proof.
  unfold ParseDuration_fuel.
  set (split := match s with
                | String c s' =>
                    if (byte_of c =? 45) || (byte_of c =? 43)
                    then (byte_of c =? 45, s')
                    else (false, s)
                | EmptyString => (false, s)
                end).
  assert (Hlen : (String.length (snd split) <= String.length s)%nat).
  { subst split. destruct s as [|c s']; [apply Nat.le_refl|].
    destruct (_ || _); simpl; lia. }
  destruct split as [neg s0]. simpl in Hlen.
  destruct (String.eqb s0 "0"); [discriminate|].
  destruct (String.eqb s0 ""); [discriminate|].
  pose proof (@parse_loop_fuel_enough (String.length s) s s0 0 Hlen) as Hf.
  destruct (parse_loop (String.length s) s s0 0) as [[d|e]|];
    [|discriminate|congruence].
  destruct neg; [discriminate|].
  destruct (d >? 2 ^ 63 - 1); discriminate.
Qed.

(** More fuel does not change the answer. *)
Lemma parse_loop_fuel_stable (fuel : nat) :
  forall orig s d r,
    parse_loop fuel orig s d = Some r ->
    forall fuel', (fuel <= fuel')%nat -> parse_loop fuel' orig s d = Some r.
Proof.
  induction fuel as [|fuel IH]; intros orig s d r H fuel' Hle.
  - destruct s; [|discriminate]. destruct fuel'; exact H.
  - destruct fuel' as [|fuel']; [lia|].
    destruct s as [|c s]; [exact H|].
    cbn [parse_loop] in *.
    destruct (parse_term orig (String c s) d) as [[d' s']|e]; [|exact H].
    apply (IH _ _ _ _ H). lia.
Qed.

(** [ParseDuration] is the answer of the loop, never the fallback. *)
Lemma ParseDuration_answers (s : string) :
  ParseDuration_fuel (String.length s) s = Some (ParseDuration s).
Proof.
  unfold ParseDuration.
  pose proof (ParseDuration_fuel_enough s) as H.
  destruct (ParseDuration_fuel (String.length s) s); [reflexivity|congruence].
Qed.

Example ParseDuration_30s : ParseDuration "30s" = Ok (30 * Second).
Proof. reflexivity. Qed.

Example ParseDuration_compound : ParseDuration "1h30m" = Ok 5400000000000.
Proof. reflexivity. Qed.

Example ParseDuration_fraction : ParseDuration "-1.5h" = Ok (-5400000000000).
Proof. reflexivity. Qed.

Example ParseDuration_no_unit :
  ParseDuration "30"
  = Err (errorString ("time: missing unit in duration " +++ quote "30")).
Proof. reflexivity. Qed.

Example ParseDuration_notaduration :
  ParseDuration "notaduration" = Err (invalid_duration "notaduration").
Proof. reflexivity. Qed.

Example Duration_String_30s : Duration_String (30 * Second) = "30s".
Proof. reflexivity. Qed.

Example Duration_String_mixed :
  Duration_String (- (Hour + 30 * Minute + 1)) = "-1h30m0.000000001s".
Proof. reflexivity. Qed.

End ParseDurationTotal.

(** ** The processing cycle *)

(** Unfolds one cycle down to the tracker's answers. *)
Ltac unfold_cycle :=
  unfold processOnce, processOnceWith, handleFailure, ProcessMR,
    call_ReadyWithType, call_Update, call_CloseWithReason,
    bind, ret, print, emit.

(** *** Counting events *)

Lemma count_events_app (p : Event -> bool) (l1 l2 : list Event) :
  count_events p (l1 ++ l2) = (count_events p l1 + count_events p l2)%nat.
Proof. unfold count_events. now rewrite List.filter_app, List.length_app. Qed.

Lemma count_events_cons (p : Event -> bool) (ev : Event) (l : list Event) :
  count_events p (ev :: l)
  = ((if p ev then 1 else 0) + count_events p l)%nat.
Proof. unfold count_events. cbn [List.filter]. now destruct (p ev). Qed.

(** Printed lines are counted by none of the predicates on tracker calls
    and pipeline stages. *)
Lemma count_events_prints (p : Event -> bool) (l : list Event) :
  (forall text, p (EvPrint text) = false) ->
  List.forallb is_print l = true ->
  count_events p l = 0%nat.
Proof.
  intros Hp. induction l as [|ev l IH]; [reflexivity|].
  cbn [List.forallb]. intros H. apply andb_prop in H as [Hev Hl].
  rewrite count_events_cons, (IH Hl).
  destruct ev; try discriminate. now rewrite Hp.
Qed.

(** Splits the count over a cycle's events and drops the printed lines. *)
Ltac count_cycle :=
  unfold claimed_prefix;
  repeat first [ rewrite count_events_app | rewrite count_events_cons ];
  repeat match goal with
    | H : List.forallb is_print ?l = true |- context [count_events ?p ?l] =>
        rewrite (count_events_prints p l (fun _ => eq_refl) H)
    end;
  reflexivity.

Section Cycle.

Context {env : Env} {T : Type} {tracker : Tracker T}.

(** The pipeline placeholder never reports success; it leaves the tracker
    alone and, past its entry, only prints. *)
Lemma ProcessMR_fails (e : Engineer) (ctx : Context) (mr : Issue) (t : T) :
  exists r evs,
    ProcessMR e ctx mr t = (r, t, EvProcessMR (ID mr) :: evs)
    /\ Success r = false
    /\ Error r <> ""
    /\ Conflict r = false
    /\ TestsFailed r = false
    /\ MergeCommit r = ""
    /\ List.forallb is_print evs = true.
Proof.
  unfold ProcessMR, bind, ret, print, emit.
  destruct (ParseMRFields mr) as [fields|]; cbn;
    eexists; eexists; repeat split; try reflexivity; cbn; discriminate.
Qed.

(** What the failure handler does, for any result and any engineer: the
    reopen update, a warning if the tracker rejected it, the failure
    line. *)
Lemma handleFailure_steps (e : Engineer) (mr : Issue) (r : ProcessResult)
      (t : T) :
  handleFailure e mr r t =
    (tt, snd (Update (ID mr) (with_status "open") t),
     reopen_of mr
       :: match fst (Update (ID mr) (with_status "open") t) with
          | Some err => [reopen_warning mr err; failed_line mr r]
          | None => [failed_line mr r]
          end).
Proof.
  unfold handleFailure, call_Update, bind, ret, print, emit, reopen_of.
  destruct (Update (ID mr) (with_status "open") t) as [[err|] t'];
    reflexivity.
Qed.

(** Past the reopen update the handler only prints. *)
Lemma handleFailure_then_prints (e : Engineer) (mr : Issue)
      (r : ProcessResult) (t : T) :
  exists logged,
    snd (handleFailure e mr r t) = reopen_of mr :: logged
    /\ List.forallb is_print logged = true.
Proof.
  rewrite handleFailure_steps. cbn [snd].
  destruct (fst (Update (ID mr) (with_status "open") t));
    eexists; split; reflexivity.
Qed.

End Cycle.

(** C7. A cycle whose ready query returns an empty list performs no
    tracker mutation (no update, no close), leaves the tracker as the query
    left it, and returns no error. *)
Theorem processOnce_empty_queue
        {env : Env} {T : Type} {tracker : Tracker T}
        (e : Engineer) (ctx : Context) (t t' : T) :
  Done ctx = false ->
  ReadyWithType "merge-request" t = (Ok [], t') ->
  processOnce e ctx t = (None, t', [EvReadyWithType "merge-request"])
  /\ count_events is_mutation (snd (processOnce e ctx t)) = 0%nat.
Proof.
  intros Hctx Hready.
  assert (H : processOnce e ctx t
              = (None, t', [EvReadyWithType "merge-request"])).
  { unfold_cycle. rewrite Hctx, Hready. reflexivity. }
  split; [exact H|]. rewrite H. reflexivity.
Qed.

Section Outcomes.

Context {env : Env} {T : Type} {tracker : Tracker T}.

Variable pipeline : Engineer -> Context -> Issue -> M T ProcessResult.
Variables (e : Engineer) (ctx : Context) (mr : Issue) (rest : list Issue).
Variables (t t1 t2 t3 : T) (result : ProcessResult) (pevs : list Event).

Hypothesis ctx_live : Done ctx = false.
Hypothesis ready : ReadyWithType "merge-request" t = (Ok (mr :: rest), t1).

(** A rejected claim ends the cycle. *)
Lemma processOnceWith_claim_rejected (err : error) :
  Update (ID mr) (with_status "in_progress") t1 = (Some err, t2) ->
  processOnceWith pipeline e ctx t =
    (Some (Errorf_w ("claiming MR " +++ ID mr +++ ": ") err), t2,
     claimed_prefix mr).
Proof.
  intros Hclaim.
  unfold processOnceWith, bind, ret, print, emit, call_ReadyWithType,
    call_Update.
  now rewrite ctx_live, ready, Hclaim.
Qed.

Hypothesis claimed :
  Update (ID mr) (with_status "in_progress") t1 = (None, t2).
Hypothesis piped : pipeline e ctx mr t2 = (result, t3, pevs).

(** After a claim, a failed result goes to the failure handler and the
    cycle returns no error. *)
Lemma processOnceWith_failure :
  Success result = false ->
  processOnceWith pipeline e ctx t =
    (None, snd (fst (handleFailure e mr result t3)),
     claimed_prefix mr ++ pevs ++ snd (handleFailure e mr result t3)).
Proof.
  intros Hfail.
  unfold processOnceWith, bind, ret, print, emit, call_ReadyWithType,
    call_Update.
  rewrite ctx_live, ready, claimed, piped, Hfail.
  destruct (handleFailure e mr result t3) as [[[] t4] hevs].
  cbn. now rewrite List.app_nil_r.
Qed.

(** After a claim, a successful result closes the item. *)
Lemma processOnceWith_success :
  Success result = true ->
  let reason := "merged: " +++ MergeCommit result in
  processOnceWith pipeline e ctx t =
    (None, snd (CloseWithReason reason [ID mr] t3),
     claimed_prefix mr ++ pevs
       ++ EvCloseWithReason reason [ID mr]
       :: match fst (CloseWithReason reason [ID mr] t3) with
          | Some err => [close_warning mr err; merged_line mr]
          | None => [merged_line mr]
          end).
Proof.
  intros Hok reason.
  unfold processOnceWith, bind, ret, print, emit, call_ReadyWithType,
    call_Update, call_CloseWithReason.
  rewrite ctx_live, ready, claimed, piped, Hok. fold reason.
  destruct (CloseWithReason reason [ID mr] t3) as [[err|] t4]; reflexivity.
Qed.

End Outcomes.

(** C1. A cycle whose ready query returns a non-empty list claims the item
    at index 0: the update of its status to [in_progress] comes before any
    other mutation and before the pipeline, and it is the only claim of the
    cycle.  If that update fails the cycle returns an error that wraps the
    tracker's, and nothing follows the failed call: no pipeline stage and
    no further tracker call.  If it succeeds the pipeline runs once. *)
Theorem processOnce_claims_first
        {env : Env} {T : Type} {tracker : Tracker T}
        (e : Engineer) (ctx : Context) (t t1 : T)
        (mr : Issue) (rest : list Issue) :
  Done ctx = false ->
  ReadyWithType "merge-request" t = (Ok (mr :: rest), t1) ->
  exists res t' post,
    processOnce e ctx t =
      (res, t',
       [EvReadyWithType "merge-request"; processing_line mr; claim_of mr]
         ++ post)
    /\ count_events mutates_or_processes
         [EvReadyWithType "merge-request"; processing_line mr] = 0%nat
    /\ count_events is_claim
         ([EvReadyWithType "merge-request"; processing_line mr; claim_of mr]
            ++ post) = 1%nat
    /\ (forall err t2,
           Update (ID mr) (with_status "in_progress") t1 = (Some err, t2) ->
           res = Some (Errorf_w ("claiming MR " +++ ID mr +++ ": ") err)
           /\ t' = t2
           /\ post = [])
    /\ (fst (Update (ID mr) (with_status "in_progress") t1) = None ->
        res = None
        /\ count_events is_pipeline post = 1%nat).
Proof.
  intros Hctx Hready. unfold processOnce.
  destruct (Update (ID mr) (with_status "in_progress") t1)
    as [[err|] t2] eqn:Hclaim.
  - rewrite (processOnceWith_claim_rejected ProcessMR e ctx mr rest t t1 t2
               Hctx Hready err Hclaim).
    eexists; eexists; exists []. split; [reflexivity|].
    split; [reflexivity|]. split; [reflexivity|]. split.
    + intros err' t2' H. injection H as <- <-. now repeat split.
    + cbn [fst]. discriminate.
  - destruct (ProcessMR_fails e ctx mr t2)
      as (r & pevs & Hp & Hs & _ & _ & _ & _ & Hpevs).
    destruct (handleFailure_then_prints e mr r t2) as (logged & Hh & Hlogged).
    rewrite (processOnceWith_failure ProcessMR e ctx mr rest t t1 t2 t2 r
               (EvProcessMR (ID mr) :: pevs) Hctx Hready Hclaim Hp Hs), Hh.
    eexists; eexists; eexists. split; [reflexivity|].
    split; [reflexivity|]. split; [|split; [discriminate|]].
    + cbn [snd]. count_cycle.
    + intros _. split; [reflexivity|].
      cbn [snd]. count_cycle.
Qed.

(** Occurrences inside a concatenation. *)
Lemma contains_middle (pre s post : string) : contains (pre +++ s +++ post) s.
Proof. now exists pre, post. Qed.

Lemma append_assoc (a b c : string) : (a +++ b) +++ c = a +++ b +++ c.
Proof. induction a as [|x a IH]; [reflexivity|]. cbn. now rewrite IH. Qed.

(** C10, as the code has it. [ProcessMR] reports failure for every item,
    with a non-empty error and neither the conflict nor the tests-failed
    flag, whether or not the description carries merge-request fields.  So
    no cycle ever calls [CloseWithReason], and every claimed item goes to
    the failure handler, whose update of the status to [open] is the next
    tracker call; the cycle leaves the tracker as that call left it,
    whether the tracker accepted it or not, and returns no error. *)
Theorem ProcessMR_never_succeeds
        {env : Env} {T : Type} {tracker : Tracker T}
        (e : Engineer) (ctx : Context) (t : T) :
  (forall (mr : Issue) (t0 : T),
      exists r evs,
        ProcessMR e ctx mr t0 = (r, t0, evs)
        /\ Success r = false
        /\ Error r <> ""
        /\ Conflict r = false
        /\ TestsFailed r = false)
  /\ count_events is_close (snd (processOnce e ctx t)) = 0%nat
  /\ (forall (mr : Issue) (rest : list Issue) (t1 t2 : T),
         Done ctx = false ->
         ReadyWithType "merge-request" t = (Ok (mr :: rest), t1) ->
         Update (ID mr) (with_status "in_progress") t1 = (None, t2) ->
         exists r pevs hevs,
           ProcessMR e ctx mr t2 = (r, t2, pevs)
           /\ handleFailure e mr r t2 =
                (tt, snd (Update (ID mr) (with_status "open") t2),
                 reopen_of mr :: hevs)
           /\ processOnce e ctx t =
                (None, snd (Update (ID mr) (with_status "open") t2),
                 claimed_prefix mr ++ pevs ++ reopen_of mr :: hevs)
           /\ count_events is_mutation pevs = 0%nat).
Proof.
  split; [|split].
  - intros mr t0.
    destruct (ProcessMR_fails e ctx mr t0)
      as (r & evs & Hp & Hs & He & Hc & Ht & _).
    now exists r, (EvProcessMR (ID mr) :: evs).
  - unfold processOnce.
    destruct (Done ctx) eqn:Hctx;
      [unfold processOnceWith; now rewrite Hctx|].
    destruct (ReadyWithType "merge-request" t) as [[[|mr rest]|err] t1]
      eqn:Hready;
      try (unfold processOnceWith, bind, ret, call_ReadyWithType;
           now rewrite Hctx, Hready).
    destruct (Update (ID mr) (with_status "in_progress") t1)
      as [[err|] t2] eqn:Hclaim.
    + now rewrite (processOnceWith_claim_rejected ProcessMR e ctx mr rest
                     t t1 t2 Hctx Hready err Hclaim).
    + destruct (ProcessMR_fails e ctx mr t2)
        as (r & pevs & Hp & Hs & _ & _ & _ & _ & Hpevs).
      destruct (handleFailure_then_prints e mr r t2)
        as (logged & Hh & Hlogged).
      rewrite (processOnceWith_failure ProcessMR e ctx mr rest t t1 t2 t2 r
                 (EvProcessMR (ID mr) :: pevs) Hctx Hready Hclaim Hp Hs), Hh.
      cbn [snd]. count_cycle.
  - intros mr rest t1 t2 Hctx Hready Hclaim.
    destruct (ProcessMR_fails e ctx mr t2)
      as (r & pevs & Hp & Hs & _ & _ & _ & _ & Hpevs).
    pose proof (handleFailure_steps e mr r t2) as Hh.
    exists r, (EvProcessMR (ID mr) :: pevs).
    eexists. split; [exact Hp|]. split; [exact Hh|]. split.
    + unfold processOnce.
      now rewrite (processOnceWith_failure ProcessMR e ctx mr rest t t1 t2 t2
                     r (EvProcessMR (ID mr) :: pevs) Hctx Hready Hclaim Hp Hs),
        Hh.
    + count_cycle.
Qed.

(** ** The failure handler *)

(** C3, as the code has it. When the pipeline fails for a claimed item,
    under any conflict strategy, the failure handler makes exactly one
    tracker call, the update of the item's status to [open], and leaves the
    tracker as that call left it, whether the call succeeded or not; a
    failed call is logged as a warning.  It then logs a line that contains
    the item identifier and the error string.  It has no error to return,
    and the cycle returns no error. *)
Theorem handleFailure_attempts_reopen
        {env : Env} {T : Type} {tracker : Tracker T}
        (pipeline : Engineer -> Context -> Issue -> M T ProcessResult)
        (e : Engineer) (ctx : Context) (mr : Issue) (rest : list Issue)
        (t t1 t2 t3 : T) (result : ProcessResult) (pevs : list Event) :
  Done ctx = false ->
  ReadyWithType "merge-request" t = (Ok (mr :: rest), t1) ->
  Update (ID mr) (with_status "in_progress") t1 = (None, t2) ->
  pipeline e ctx mr t2 = (result, t3, pevs) ->
  Success result = false ->
  let reopen := Update (ID mr) (with_status "open") t3 in
  exists warned,
    handleFailure e mr result t3 =
      (tt, snd reopen, reopen_of mr :: warned ++ [failed_line mr result])
    /\ count_events is_mutation (warned ++ [failed_line mr result]) = 0%nat
    /\ (fst reopen = None -> warned = [])
    /\ (forall err, fst reopen = Some err -> warned = [reopen_warning mr err])
    /\ (exists text,
           failed_line mr result = EvPrint text
           /\ contains text (ID mr)
           /\ contains text (Error result))
    /\ processOnceWith pipeline e ctx t =
         (None, snd reopen,
          claimed_prefix mr ++ pevs
            ++ reopen_of mr :: warned ++ [failed_line mr result]).
Proof.
  intros Hctx Hready Hclaim Hpipe Hfail reopen.
  rewrite (processOnceWith_failure pipeline e ctx mr rest t t1 t2 t3 result
             pevs Hctx Hready Hclaim Hpipe Hfail).
  rewrite handleFailure_steps. fold reopen.
  assert (Htext : exists text,
             failed_line mr result = EvPrint text
             /\ contains text (ID mr)
             /\ contains text (Error result)).
  { eexists. split; [reflexivity|]. split; [apply contains_middle|].
    exists ("[Engineer] ✗ Failed: " +++ ID mr +++ " - "), nl.
    now rewrite !append_assoc. }
  destruct (fst reopen) as [err|].
  - exists [reopen_warning mr err].
    repeat split; try assumption; try reflexivity.
    + discriminate.
    + intros err' H. now injection H as <-.
  - exists []. repeat split; try assumption; try reflexivity.
    discriminate.
Qed.

(** C4, as the code has it. When the pipeline fails and the configured
    strategy is [auto_rebase], the failure handler does what it does under
    [assign_back]: one reopen update and the log lines, no rebase and no
    resubmission; the pipeline runs once in the cycle. *)
Theorem handleFailure_ignores_strategy
        {env : Env} {T : Type} {tracker : Tracker T}
        (e : Engineer) (ctx : Context) (mr : Issue) (rest : list Issue)
        (t t1 t2 : T) (result : ProcessResult) :
  OnConflict (config e) = "auto_rebase" ->
  Success result = false ->
  Done ctx = false ->
  ReadyWithType "merge-request" t = (Ok (mr :: rest), t1) ->
  Update (ID mr) (with_status "in_progress") t1 = (None, t2) ->
  let assign_back := with_config (set_OnConflict "assign_back" (config e)) e in
  (forall t0,
      handleFailure e mr result t0 = handleFailure assign_back mr result t0)
  /\ (forall t0,
         exists logged,
           snd (handleFailure e mr result t0) = reopen_of mr :: logged
           /\ count_events mutates_or_processes logged = 0%nat)
  /\ processOnce e ctx t = processOnce assign_back ctx t
  /\ count_events is_pipeline (snd (processOnce e ctx t)) = 1%nat.
Proof.
  intros Hstrategy Hfail Hctx Hready Hclaim assign_back.
  split; [reflexivity|]. split; [|split; [reflexivity|]].
  - intros t0.
    destruct (handleFailure_then_prints e mr result t0)
      as (logged & Hh & Hlogged).
    exists logged. split; [exact Hh|].
    exact (count_events_prints _ _ (fun _ => eq_refl) Hlogged).
  - destruct (ProcessMR_fails e ctx mr t2)
      as (r & pevs & Hp & Hs & _ & _ & _ & _ & Hpevs).
    destruct (handleFailure_then_prints e mr r t2) as (logged & Hh & Hlogged).
    unfold processOnce.
    rewrite (processOnceWith_failure ProcessMR e ctx mr rest t t1 t2 t2 r
               (EvProcessMR (ID mr) :: pevs) Hctx Hready Hclaim Hp Hs), Hh.
    cbn [snd]. count_cycle.
Qed.

(** ** Run and Stop *)

(** C6. If the configuration that [LoadConfig] resolves has [enabled] false,
    [Run] returns an error at once: nothing is printed, no ticker is
    created, no cycle runs and the tracker is not called. *)
Theorem Run_disabled
        {env : Env} {T : Type} {tracker : Tracker T}
        (e e' : Engineer) (ctx : Context) (wakeups : list Wakeup) (t : T) :
  LoadConfig e = (None, e') ->
  Enabled (config e') = false ->
  Run e ctx wakeups t =
    (Returned (Some (errorString "merge queue is disabled in configuration")),
     e', t, []).
Proof.
  intros Hload Hdisabled. unfold Run. rewrite Hload, Hdisabled. reflexivity.
Qed.

(** C9. The first [Stop] closes the stop channel and returns; a second
    [Stop] on the same engineer panics, closing a closed channel. *)
Theorem Stop_not_idempotent (e : Engineer) :
  stopCh e = chan_open ->
  exists e',
    Stop e = Returns e'
    /\ stopCh e' = chan_closed
    /\ Stop e' = Panics "close of closed channel".
Proof.
  intros Hopen. exists (with_stopCh chan_closed e).
  unfold Stop. rewrite Hopen. repeat split.
Qed.

(** ** Configuration resolution *)

Section Config.

Context {env : Env}.

(** The overlay of a decoded section on the defaults is the
    configuration the sparse-override law prescribes. *)
Lemma apply_mqRaw_default (raw : mqRaw.t) :
  apply_mqRaw raw DefaultMergeQueueConfig = sparse_override raw None.
Proof.
  destruct raw as [enabled target integration conflict tests command
                     delete retry poll concurrent].
  unfold apply_mqRaw, sparse_override, apply_opt, or_default. cbn.
  destruct enabled, target, integration, conflict, tests, command, delete,
    retry, concurrent; reflexivity.
Qed.

Lemma set_PollInterval_override (raw : mqRaw.t) (d : time.Duration) :
  set_PollInterval d (sparse_override raw None) = sparse_override raw (Some d).
Proof. reflexivity. Qed.

(** [LoadConfig] on a section that decodes. *)
Lemma LoadConfig_section (e : Engineer) (data section : bytes)
      (raw : mqRaw.t) :
  os_ReadFile (configPath e) = Ok data ->
  json_Unmarshal_rawConfig data = Ok (Some section) ->
  json_Unmarshal_mqRaw section = Ok raw ->
  LoadConfig e =
    match mqRaw.PollInterval raw with
    | Some s =>
        match time.ParseDuration s with
        | Err err =>
            (Some (Errorf_w ("invalid poll_interval " +++ strconv_Quote s
                             +++ ": ") err),
             with_config (apply_mqRaw raw (config e)) e)
        | Ok dur =>
            (None,
             with_config (set_PollInterval dur (apply_mqRaw raw (config e))) e)
        end
    | None => (None, with_config (apply_mqRaw raw (config e)) e)
    end.
Proof.
  intros Hread Hraw Hmq. unfold LoadConfig. fold (configPath e).
  now rewrite Hread, Hraw, Hmq.
Qed.

End Config.

(** C2. On a new engineer, [LoadConfig] obeys the sparse-override law.  If
    the configuration file does not exist, or holds no [merge_queue]
    section, it returns no error and the configuration keeps every default
    (Enabled true, TargetBranch main, IntegrationBranches true, OnConflict
    assign_back, RunTests true, DeleteMergedBranches true, RetryFlakyTests 1,
    PollInterval 30s, MaxConcurrent 1).  If the section is there and
    decodes, [LoadConfig] returns no error whenever the poll interval is
    absent or parses, and then every key that is specified has its value
    and every key that is not keeps its default. *)
Theorem LoadConfig_sparse_override {env : Env} (r : rig.Rig) :
  let e := NewEngineer r in
  let defaults :=
    {| Enabled := true; TargetBranch := "main"; IntegrationBranches := true;
       OnConflict := "assign_back"; RunTests := true; TestCommand := "";
       DeleteMergedBranches := true; RetryFlakyTests := 1;
       PollInterval := 30000000000; MaxConcurrent := 1 |} in
  (forall err,
      os_ReadFile (configPath e) = Err err ->
      os_IsNotExist err = true ->
      fst (LoadConfig e) = None
      /\ config (snd (LoadConfig e)) = defaults)
  /\ (forall data,
         os_ReadFile (configPath e) = Ok data ->
         json_Unmarshal_rawConfig data = Ok None ->
         fst (LoadConfig e) = None
         /\ config (snd (LoadConfig e)) = defaults)
  /\ (forall data section raw,
         os_ReadFile (configPath e) = Ok data ->
         json_Unmarshal_rawConfig data = Ok (Some section) ->
         json_Unmarshal_mqRaw section = Ok raw ->
         (mqRaw.PollInterval raw = None ->
          fst (LoadConfig e) = None
          /\ config (snd (LoadConfig e)) = sparse_override raw None)
         /\ (forall s d,
                mqRaw.PollInterval raw = Some s ->
                time.ParseDuration s = Ok d ->
                fst (LoadConfig e) = None
                /\ config (snd (LoadConfig e)) = sparse_override raw (Some d)
                /\ PollInterval (config (snd (LoadConfig e))) = d)
         /\ (fst (LoadConfig e) = None ->
             Enabled (config (snd (LoadConfig e)))
             = or_default (mqRaw.Enabled raw) true
             /\ TargetBranch (config (snd (LoadConfig e)))
                = or_default (mqRaw.TargetBranch raw) "main"
             /\ IntegrationBranches (config (snd (LoadConfig e)))
                = or_default (mqRaw.IntegrationBranches raw) true
             /\ OnConflict (config (snd (LoadConfig e)))
                = or_default (mqRaw.OnConflict raw) "assign_back"
             /\ RunTests (config (snd (LoadConfig e)))
                = or_default (mqRaw.RunTests raw) true
             /\ TestCommand (config (snd (LoadConfig e)))
                = or_default (mqRaw.TestCommand raw) ""
             /\ DeleteMergedBranches (config (snd (LoadConfig e)))
                = or_default (mqRaw.DeleteMergedBranches raw) true
             /\ RetryFlakyTests (config (snd (LoadConfig e)))
                = or_default (mqRaw.RetryFlakyTests raw) 1
             /\ MaxConcurrent (config (snd (LoadConfig e)))
                = or_default (mqRaw.MaxConcurrent raw) 1
             /\ (mqRaw.PollInterval raw = None ->
                 PollInterval (config (snd (LoadConfig e))) = 30000000000))).
Proof.
  intros e defaults. split; [|split].
  - intros err Hread Hne. unfold LoadConfig. fold (configPath e).
    rewrite Hread, Hne. now split.
  - intros data Hread Hraw. unfold LoadConfig. fold (configPath e).
    rewrite Hread, Hraw. now split.
  - intros data section raw Hread Hraw Hmq.
    rewrite (LoadConfig_section e data section raw Hread Hraw Hmq).
    change (config e) with DefaultMergeQueueConfig.
    rewrite apply_mqRaw_default. split; [|split].
    + intros ->. now split.
    + intros s d -> ->. cbn [fst snd config with_config].
      now rewrite set_PollInterval_override.
    + destruct (mqRaw.PollInterval raw) as [s|].
      * destruct (time.ParseDuration s) as [d|perr];
          cbn [fst snd config with_config]; [|discriminate].
        intros _. rewrite set_PollInterval_override.
        repeat split. discriminate.
      * intros _. cbn [fst snd config with_config]. now repeat split.
Qed.

(** C5. On a [merge_queue] section that decodes: a [poll_interval] of
    ["30s"] makes [LoadConfig] return no error and set the interval to 30
    seconds; a [poll_interval] that [time.ParseDuration] rejects, as it
    does ["notaduration"], makes [LoadConfig] return an error that wraps
    the parser's, and [Run] returns an error without starting.  A section
    that does not decode is an error of [LoadConfig] as well. *)
Theorem LoadConfig_poll_interval
        {env : Env} {T : Type} {tracker : Tracker T}
        (e : Engineer) (data section : bytes) :
  os_ReadFile (configPath e) = Ok data ->
  json_Unmarshal_rawConfig data = Ok (Some section) ->
  (forall raw,
      json_Unmarshal_mqRaw section = Ok raw ->
      mqRaw.PollInterval raw = Some "30s" ->
      fst (LoadConfig e) = None
      /\ PollInterval (config (snd (LoadConfig e))) = 30 * time.Second
      /\ 30 * time.Second = 30000000000)
  /\ (forall raw s err,
         json_Unmarshal_mqRaw section = Ok raw ->
         mqRaw.PollInterval raw = Some s ->
         time.ParseDuration s = Err err ->
         fst (LoadConfig e) =
           Some (Errorf_w ("invalid poll_interval " +++ strconv_Quote s
                           +++ ": ") err)
         /\ forall (ctx : Context) (wakeups : list Wakeup) (t : T),
             exists err' e',
               Run e ctx wakeups t = (Returned (Some err'), e', t, []))
  /\ (forall err,
         json_Unmarshal_mqRaw section = Err err ->
         LoadConfig e = (Some (Errorf_w "parsing merge_queue config: " err), e))
  /\ (exists err, time.ParseDuration "notaduration" = Err err).
Proof.
  intros Hread Hraw.
  split; [|split; [|split]].
  - intros raw Hmq Hpoll.
    pose proof (LoadConfig_section e data section raw Hread Hraw Hmq) as Hload.
    rewrite Hpoll in Hload.
    change (time.ParseDuration "30s")
      with (@Ok time.Duration (30 * time.Second)) in Hload.
    rewrite Hload. repeat split.
  - intros raw s err Hmq Hpoll Hparse.
    pose proof (LoadConfig_section e data section raw Hread Hraw Hmq) as Hload.
    rewrite Hpoll, Hparse in Hload. split.
    + now rewrite Hload.
    + intros ctx wakeups t. unfold Run. rewrite Hload.
      eexists; eexists; reflexivity.
  - intros err Hmq. unfold LoadConfig. fold (configPath e).
    now rewrite Hread, Hraw, Hmq.
  - eexists. reflexivity.
Qed.

(** * Worked cycles on the reference tracker *)

Module Worked.

Import Reference.

#[local] Existing Instance env0.

(** The reference tracker leaves every item as it was when it rejects an
    update. *)
Lemma mem_Update_rejected (id : string) (opts : UpdateOptions.t) (st st' : Mem)
      (err : error) :
  mem_Update id opts st = (Some err, st') -> items st' = items st.
Proof.
  unfold mem_Update, next_fault.
  destruct (faults st) as [|[|] fs]; cbn;
    try (destruct (existsb (has_id id) (items st)));
    intros H; try discriminate; now injection H as _ <-.
Qed.

(** It sets the status when it accepts one. *)
Lemma mem_Update_accepted (id s : string) (st st' : Mem) :
  mem_Update id {| UpdateOptions.Status := Some s |} st = (None, st') ->
  status_of st' id = Some s.
Proof.
  unfold mem_Update, next_fault, status_of.
  assert (Hmap : forall l,
             existsb (has_id id) l = true ->
             option_map Status
               (find (has_id id)
                  (map (fun i => if has_id id i then set_status s i else i) l))
             = Some s).
  { induction l as [|i l IH]; [discriminate|]. cbn.
    destruct (has_id id i) eqn:Hi.
    - intros _. unfold has_id in *. cbn. now rewrite Hi.
    - cbn. rewrite Hi. exact IH. }
  destruct (faults st) as [|[|] fs]; cbn; try discriminate;
    destruct (existsb (has_id id) (items st)) eqn:Hex; try discriminate;
    intros H; injection H as <-; cbn; now apply Hmap.
Qed.

(** A cycle on the queue when the tracker accepts every call: the first
    item is claimed, fails in the pipeline and is open again. *)
Example cycle_reopens :
  fst (fst (processOnce (NewEngineer gastown) running queue)) = None
  /\ status_of (snd (fst (processOnce (NewEngineer gastown) running queue)))
       "gt-101" = Some "open".
Proof. split; reflexivity. Qed.

(** [Run] on the queue: the immediate cycle, one tick, then the stop
    signal. *)
Example run_until_stopped :
  let '(out, e, st, evs) :=
    Run (NewEngineer gastown) running [wake_tick running; wake_stop] queue in
  out = Returned None
  /\ config e = DefaultMergeQueueConfig
  /\ count_events is_claim evs = 2%nat
  /\ count_events is_close evs = 0%nat
  /\ List.hd_error evs
     = Some (EvPrint ("[Engineer] Starting for rig gastown (poll_interval=30s)"
                      +++ nl))
  /\ List.last evs EvTickerStop = EvTickerStop.
Proof. vm_compute. repeat split. Qed.

(** A poll interval of zero parses, and the ticker panics on it. *)
Example run_zero_interval :
  fst (fst (fst (Run (env := env_of (doc_poll "0s")) (NewEngineer gastown)
                   running [wake_stop] queue)))
  = Panicked "non-positive interval for NewTicker".
Proof. reflexivity. Qed.

(** Witness of C7: an empty ready queue. *)
Lemma processOnce_empty_queue_witness :
  Done running = false
  /\ ReadyWithType "merge-request" drained = (Ok [], drained)
  /\ processOnce (NewEngineer gastown) running drained
     = (None, drained, [EvReadyWithType "merge-request"]).
Proof.
  split; [reflexivity|]. split; [reflexivity|].
  exact (proj1 (processOnce_empty_queue (NewEngineer gastown) running
                  drained drained ltac:(reflexivity) ltac:(reflexivity))).
Defined.

(** Witness of C1: the claim update fails on the first of two items. *)
Lemma processOnce_claims_first_witness :
  Done running = false
  /\ ReadyWithType "merge-request" queue_claim_fails
     = (Ok [mr1; mr2], {| items := [mr1; mr2]; faults := [true] |})
  /\ exists res t' post,
      processOnce (NewEngineer gastown) running queue_claim_fails
      = (res, t',
         [EvReadyWithType "merge-request"; processing_line mr1; claim_of mr1]
           ++ post)
      /\ post = []
      /\ status_of t' "gt-101" = Some "open".
Proof.
  split; [reflexivity|]. split; [reflexivity|].
  destruct (processOnce_claims_first (NewEngineer gastown) running
              queue_claim_fails {| items := [mr1; mr2]; faults := [true] |}
              mr1 [mr2] ltac:(reflexivity) ltac:(reflexivity))
    as (res & t' & post & Hrun & _ & _ & Hfail & _).
  destruct (Hfail (errorString "bd update: tracker unavailable")
              {| items := [mr1; mr2]; faults := [] |} ltac:(reflexivity))
    as (_ & Ht & Hpost).
  exists res, t', post. split; [exact Hrun|]. split; [exact Hpost|].
  rewrite Ht. reflexivity.
Defined.

(** Witness of C10: a cycle on two ready items. *)
Lemma ProcessMR_never_succeeds_witness :
  count_events is_close (snd (processOnce (NewEngineer gastown) running queue))
  = 0%nat
  /\ exists r pevs hevs,
      ProcessMR (NewEngineer gastown) running mr1
        {| items := [set_status "in_progress" mr1; mr2]; faults := [] |}
      = (r, {| items := [set_status "in_progress" mr1; mr2]; faults := [] |},
         pevs)
      /\ processOnce (NewEngineer gastown) running queue
         = (None,
            snd (Update "gt-101" (with_status "open")
                   {| items := [set_status "in_progress" mr1; mr2];
                      faults := [] |}),
            claimed_prefix mr1 ++ pevs ++ reopen_of mr1 :: hevs).
Proof.
  destruct (ProcessMR_never_succeeds (NewEngineer gastown) running queue)
    as (_ & Hclose & Hcycle).
  split; [exact Hclose|].
  destruct (Hcycle mr1 [mr2] queue
              {| items := [set_status "in_progress" mr1; mr2]; faults := [] |}
              ltac:(reflexivity) ltac:(reflexivity) ltac:(reflexivity))
    as (r & pevs & hevs & Hp & _ & Hrun & _).
  exists r, pevs, hevs. split; [exact Hp | exact Hrun].
Defined.

(** Counterexample to C10 as stated: the first item of the queue is
    claimed, the pipeline fails, and the tracker rejects the reopen update;
    the cycle returns no error, has closed nothing, and the claimed item is
    not reopened: it is left at [in_progress]. *)
Lemma claimed_item_not_reopened :
  Done running = false
  /\ ReadyWithType "merge-request" queue_third_call_fails
     = (Ok [mr1; mr2], {| items := [mr1; mr2]; faults := [false; true] |})
  /\ Update (ID mr1) (with_status "in_progress")
       {| items := [mr1; mr2]; faults := [false; true] |}
     = (None, claimed_next_call_fails)
  /\ fst (fst (processOnce (NewEngineer gastown) running
                 queue_third_call_fails)) = None
  /\ ~ cycle_reopens_claimed (NewEngineer gastown) running mr1
         queue_third_call_fails
  /\ status_of
       (snd (fst (processOnce (NewEngineer gastown) running
                    queue_third_call_fails))) (ID mr1)
     = Some "in_progress".
Proof.
  repeat split; try reflexivity.
  unfold cycle_reopens_claimed. vm_compute. discriminate.
Qed.

(** Witness of C3 as amended: the reopen update fails, and the handler
    logs and returns all the same. *)
Lemma handleFailure_attempts_reopen_witness :
  Success failed = false
  /\ exists warned,
      handleFailure (engineer_with "assign_back") mr1 failed
        claimed_next_call_fails
      = (tt, {| items := [set_status "in_progress" mr1; mr2]; faults := [] |},
         reopen_of mr1 :: warned
           ++ [failed_line mr1 failed]).
Proof.
  split; [reflexivity|].
  destruct (handleFailure_attempts_reopen
              (fun _ _ _ => ret failed)
              (engineer_with "assign_back") running mr1 [mr2]
              {| items := [mr1; mr2]; faults := [false; false; true] |}
              {| items := [mr1; mr2]; faults := [false; true] |}
              claimed_next_call_fails claimed_next_call_fails
              failed [] ltac:(reflexivity) ltac:(reflexivity) ltac:(reflexivity)
              ltac:(reflexivity) ltac:(reflexivity))
    as (warned & Hh & _).
  exists warned. exact Hh.
Defined.

(** Counterexample to C3 as stated: under [assign_back], with a failed
    result, the handler leaves a claimed item at [in_progress] when the
    tracker rejects the reopen update; so does the whole cycle. *)
Lemma handleFailure_can_strand_item :
  OnConflict (config (engineer_with "assign_back")) = "assign_back"
  /\ Success failed = false
  /\ status_of claimed_next_call_fails (ID mr1) = Some "in_progress"
  /\ ~ handler_reopens (engineer_with "assign_back") mr1 failed
         claimed_next_call_fails
  /\ status_of
       (snd (fst (handleFailure (engineer_with "assign_back") mr1 failed
                    claimed_next_call_fails))) (ID mr1)
     = Some "in_progress"
  /\ fst (fst (processOnce (engineer_with "assign_back") running
                 queue_third_call_fails)) = None
  /\ status_of
       (snd (fst (processOnce (engineer_with "assign_back") running
                    queue_third_call_fails))) (ID mr1)
     = Some "in_progress".
Proof.
  repeat split; try reflexivity.
  unfold handler_reopens. vm_compute. discriminate.
Qed.

(** Witness of C4 as amended: a cycle under [auto_rebase]. *)
Lemma handleFailure_ignores_strategy_witness :
  OnConflict (config (engineer_with "auto_rebase")) = "auto_rebase"
  /\ processOnce (engineer_with "auto_rebase") running queue
     = processOnce (engineer_with "assign_back") running queue
  /\ count_events is_pipeline
       (snd (processOnce (engineer_with "auto_rebase") running queue))
     = 1%nat.
Proof.
  split; [reflexivity|].
  destruct (handleFailure_ignores_strategy
              (engineer_with "auto_rebase") running mr1 [mr2] queue queue
              {| items := [set_status "in_progress" mr1; mr2]; faults := [] |}
              failed ltac:(reflexivity) ltac:(reflexivity) ltac:(reflexivity)
              ltac:(reflexivity) ltac:(reflexivity))
    as (_ & _ & Hsame & Hcount).
  split; [exact Hsame | exact Hcount].
Defined.

(** Counterexample to C4 as stated: under [auto_rebase] a failed item is
    not resubmitted; the pipeline runs once and the handler reopens. *)
Lemma auto_rebase_not_attempted :
  OnConflict (config (engineer_with "auto_rebase")) = "auto_rebase"
  /\ ~ resubmits_once
         (snd (processOnce (engineer_with "auto_rebase") running queue))
  /\ snd (processOnce (engineer_with "auto_rebase") running queue)
     = [EvReadyWithType "merge-request";
        EvPrint ("[Engineer] Processing: gt-101 (Merge polecat/fix-login)"
                 +++ nl);
        EvUpdate "gt-101" (with_status "in_progress");
        EvProcessMR "gt-101";
        EvPrint ("[Engineer] Would process:" +++ nl);
        EvPrint ("  Branch: polecat/fix-login" +++ nl);
        EvPrint ("  Target: main" +++ nl);
        EvPrint ("  Worker: polecat" +++ nl);
        EvUpdate "gt-101" (with_status "open");
        EvPrint ("[Engineer] ✗ Failed: gt-101 - "
                 +++ "ProcessMR not fully implemented (see gt-3x1.2)" +++ nl)].
Proof.
  split; [reflexivity|]. split; [|reflexivity].
  unfold resubmits_once. vm_compute. discriminate.
Qed.

(** Witness of C9: two calls of [Stop] on a new engineer. *)
Lemma Stop_not_idempotent_witness :
  stopCh (NewEngineer gastown) = chan_open
  /\ exists e',
      Stop (NewEngineer gastown) = Returns e'
      /\ Stop e' = Panics "close of closed channel".
Proof.
  split; [reflexivity|].
  destruct (Stop_not_idempotent (NewEngineer gastown) ltac:(reflexivity))
    as (e' & H1 & _ & H2).
  exists e'. split; [exact H1 | exact H2].
Defined.

(** Witness of C6: [{"merge_queue": {"enabled": false}}]. *)
Lemma Run_disabled_witness :
  Enabled (config (snd (LoadConfig (env := env_of doc_disabled)
                          (NewEngineer gastown)))) = false
  /\ Run (env := env_of doc_disabled) (NewEngineer gastown) running
        [wake_tick running; wake_stop] queue
     = (Returned
          (Some (errorString "merge queue is disabled in configuration")),
        with_config (set_Enabled false DefaultMergeQueueConfig)
          (NewEngineer gastown), queue, []).
Proof.
  split; [reflexivity|].
  exact (Run_disabled (env := env_of doc_disabled) (NewEngineer gastown)
           (with_config (set_Enabled false DefaultMergeQueueConfig)
              (NewEngineer gastown))
           running [wake_tick running; wake_stop] queue
           ltac:(reflexivity) ltac:(reflexivity)).
Defined.

(** Witness of C2: [{"merge_queue": {"target_branch": "release"}}] sets
    the target branch and nothing else; with no file every default
    stays. *)
Lemma LoadConfig_sparse_override_witness :
  os_ReadFile (Env := env_of doc_release)
    (configPath (env := env_of doc_release) (NewEngineer gastown))
  = Ok (Some doc_release)
  /\ fst (LoadConfig (env := env_of doc_release) (NewEngineer gastown)) = None
  /\ config (snd (LoadConfig (env := env_of doc_release)
                    (NewEngineer gastown)))
     = {| Enabled := true; TargetBranch := "release";
          IntegrationBranches := true; OnConflict := "assign_back";
          RunTests := true; TestCommand := "";
          DeleteMergedBranches := true; RetryFlakyTests := 1;
          PollInterval := 30000000000; MaxConcurrent := 1 |}
  /\ TargetBranch
       (config (snd (LoadConfig (env := env_of doc_release)
                       (NewEngineer gastown)))) = "release"
  /\ TargetBranch
       (config (snd (LoadConfig (env := env0) (NewEngineer gastown))))
     = "main".
Proof.
  split; [reflexivity|].
  destruct (LoadConfig_sparse_override (env := env_of doc_release) gastown)
    as (_ & _ & Hsection).
  destruct (Hsection (Some doc_release)
              (Some (JObject [("target_branch", JString "release")]))
              (mqRaw.Build_t None (Some "release") None None None None None
                 None None None)
              ltac:(reflexivity) ltac:(reflexivity) ltac:(reflexivity))
    as (Hnone & _ & Hfields).
  destruct (Hnone ltac:(reflexivity)) as (Hok & Hconfig).
  destruct (Hfields Hok) as (_ & Htarget & _).
  split; [exact Hok|]. split; [exact Hconfig|]. split; [exact Htarget|].
  destruct (LoadConfig_sparse_override (env := env0) gastown)
    as (Habsent & _).
  destruct (Habsent _ ltac:(reflexivity) ltac:(reflexivity)) as (_ & Hdef).
  rewrite Hdef. reflexivity.
Defined.

(** Witness of C5: [poll_interval] of ["30s"] and of ["notaduration"]. *)
Lemma LoadConfig_poll_interval_witness :
  PollInterval
    (config (snd (LoadConfig (env := env_of (doc_poll "30s"))
                    (NewEngineer gastown))))
  = 30000000000
  /\ exists err' e',
      Run (env := env_of (doc_poll "notaduration")) (NewEngineer gastown)
        running [wake_tick running] queue
      = (Returned (Some err'), e', queue, []).
Proof.
  split.
  - destruct (LoadConfig_poll_interval (env := env_of (doc_poll "30s"))
                (T := Mem) (NewEngineer gastown) (Some (doc_poll "30s"))
                (Some (JObject [("poll_interval", JString "30s")]))
                ltac:(reflexivity) ltac:(reflexivity)) as (Hok & _).
    destruct (Hok (mqRaw.Build_t None None None None None None None None
                     (Some "30s") None)
                ltac:(reflexivity) ltac:(reflexivity)) as (_ & Hdur & Hns).
    rewrite Hdur. exact Hns.
  - destruct (LoadConfig_poll_interval
                (env := env_of (doc_poll "notaduration"))
                (T := Mem) (NewEngineer gastown)
                (Some (doc_poll "notaduration"))
                (Some (JObject [("poll_interval", JString "notaduration")]))
                ltac:(reflexivity) ltac:(reflexivity)) as (_ & Hbad & _).
    destruct (Hbad (mqRaw.Build_t None None None None None None None None
                      (Some "notaduration") None)
                "notaduration" (time.invalid_duration "notaduration")
                ltac:(reflexivity) ltac:(reflexivity) ltac:(reflexivity))
      as (_ & Hrun).
    exact (Hrun running [wake_tick running] queue).
Defined.

End Worked.

(** * Further properties of the engine *)

(** ** LoadConfig on any engineer *)

Section Reload.

Context {env : Env}.

(** The assignments of [LoadConfig] amount to the overlay. *)
Lemma apply_mqRaw_overlay (raw : mqRaw.t) (c : MergeQueueConfig) :
  apply_mqRaw raw c = overlay raw None c.
Proof.
  destruct raw as [enabled target integration conflict tests command
                     delete retry poll concurrent], c.
  unfold apply_mqRaw, overlay, apply_opt, or_default. cbn.
  destruct enabled, target, integration, conflict, tests, command, delete,
    retry, concurrent; reflexivity.
Qed.

Lemma set_PollInterval_overlay (raw : mqRaw.t) (d : time.Duration)
      (c : MergeQueueConfig) :
  set_PollInterval d (overlay raw None c) = overlay raw (Some d) c.
Proof. reflexivity. Qed.

(** Overlaying the same section twice changes nothing more. *)
Lemma overlay_twice (raw : mqRaw.t) (i i' : option time.Duration)
      (c : MergeQueueConfig) :
  overlay raw i (overlay raw i' c)
  = overlay raw (match i with Some d => Some d | None => i' end) c.
Proof.
  destruct raw as [enabled target integration conflict tests command
                     delete retry poll concurrent].
  unfold overlay, or_default. cbn.
  destruct enabled, target, integration, conflict, tests, command, delete,
    retry, concurrent, i, i'; reflexivity.
Qed.

(** [LoadConfig] on a section that decodes, by the overlay. *)
Lemma LoadConfig_overlay (e : Engineer) (data section : bytes)
      (raw : mqRaw.t) :
  os_ReadFile (configPath e) = Ok data ->
  json_Unmarshal_rawConfig data = Ok (Some section) ->
  json_Unmarshal_mqRaw section = Ok raw ->
  LoadConfig e =
    match mqRaw.PollInterval raw with
    | Some s =>
        match time.ParseDuration s with
        | Err err =>
            (Some (Errorf_w ("invalid poll_interval " +++ strconv_Quote s
                             +++ ": ") err),
             with_config (overlay raw None (config e)) e)
        | Ok dur => (None, with_config (overlay raw (Some dur) (config e)) e)
        end
    | None => (None, with_config (overlay raw None (config e)) e)
    end.
Proof.
  intros Hread Hraw Hmq.
  rewrite (LoadConfig_section e data section raw Hread Hraw Hmq).
  rewrite apply_mqRaw_overlay.
  destruct (mqRaw.PollInterval raw) as [s|]; [|reflexivity].
  destruct (time.ParseDuration s); reflexivity.
Qed.

End Reload.


(** X2. [LoadConfig] is idempotent: loading a second time, from the same
    file, returns what the first load returned and leaves the engineer as
    the first load left it.  A caller that loads the configuration before
    [Run], which loads it again, sees the same configuration. *)
Theorem LoadConfig_idempotent {env : Env} (e : Engineer) :
  LoadConfig (snd (LoadConfig e)) = LoadConfig e.
Proof.
  destruct (os_ReadFile (configPath e)) as [data|err] eqn:Hread.
  - destruct (json_Unmarshal_rawConfig data) as [[section|]|err] eqn:Hraw.
    + destruct (json_Unmarshal_mqRaw section) as [raw|err] eqn:Hmq.
      * rewrite (LoadConfig_overlay e data section raw Hread Hraw Hmq).
        destruct (mqRaw.PollInterval raw) as [s|] eqn:Hpoll.
        -- destruct (time.ParseDuration s) as [d|perr] eqn:Hparse; cbn [snd].
           ++ rewrite (LoadConfig_overlay
                         (with_config (overlay raw (Some d) (config e)) e)
                         data section raw Hread Hraw Hmq).
              rewrite Hpoll, Hparse. cbn [config with_config].
              now rewrite overlay_twice.
           ++ rewrite (LoadConfig_overlay
                         (with_config (overlay raw None (config e)) e)
                         data section raw Hread Hraw Hmq).
              rewrite Hpoll, Hparse. cbn [config with_config].
              now rewrite overlay_twice.
        -- cbn [snd].
           rewrite (LoadConfig_overlay
                      (with_config (overlay raw None (config e)) e)
                      data section raw Hread Hraw Hmq).
           rewrite Hpoll. cbn [config with_config].
           now rewrite overlay_twice.
      * unfold LoadConfig at 2. fold (configPath e).
        rewrite Hread, Hraw, Hmq. cbn [snd].
        unfold LoadConfig. fold (configPath e). now rewrite Hread, Hraw, Hmq.
    + unfold LoadConfig at 2. fold (configPath e).
      rewrite Hread, Hraw. cbn [snd].
      unfold LoadConfig. fold (configPath e). now rewrite Hread, Hraw.
    + unfold LoadConfig at 2. fold (configPath e).
      rewrite Hread, Hraw. cbn [snd].
      unfold LoadConfig. fold (configPath e). now rewrite Hread, Hraw.
  - unfold LoadConfig at 2. fold (configPath e). rewrite Hread.
    destruct (os_IsNotExist err) eqn:Hne; cbn [snd];
      unfold LoadConfig; fold (configPath e); now rewrite Hread, Hne.
Qed.

(** None of the ways to load applies. *)
Ltac load_refused :=
  intros [(? & ? & ?)
         | [(? & ? & ?)
           | (? & ? & ? & ? & ? & ? & [? | (? & ? & ? & ?)])]];
  congruence.

(** X3. [LoadConfig] returns no error exactly when the file does not exist,
    or holds no [merge_queue] section, or holds one that decodes and whose
    poll interval is absent or parses.  When it does return an error the
    engineer is unchanged, unless the error is the poll interval's. *)
Theorem LoadConfig_succeeds_iff {env : Env} (e : Engineer) :
  (fst (LoadConfig e) = None <->
   (exists err,
       os_ReadFile (configPath e) = Err err /\ os_IsNotExist err = true)
   \/ (exists data,
          os_ReadFile (configPath e) = Ok data
          /\ json_Unmarshal_rawConfig data = Ok None)
   \/ (exists data section raw,
          os_ReadFile (configPath e) = Ok data
          /\ json_Unmarshal_rawConfig data = Ok (Some section)
          /\ json_Unmarshal_mqRaw section = Ok raw
          /\ (mqRaw.PollInterval raw = None
              \/ exists s d,
                  mqRaw.PollInterval raw = Some s
                  /\ time.ParseDuration s = Ok d)))
  /\ (fst (LoadConfig e) <> None ->
      snd (LoadConfig e) = e
      \/ exists data section raw s perr,
          os_ReadFile (configPath e) = Ok data
          /\ json_Unmarshal_rawConfig data = Ok (Some section)
          /\ json_Unmarshal_mqRaw section = Ok raw
          /\ mqRaw.PollInterval raw = Some s
          /\ time.ParseDuration s = Err perr).
Proof.
  destruct (os_ReadFile (configPath e)) as [data|err] eqn:Hread.
  - destruct (json_Unmarshal_rawConfig data) as [[section|]|err] eqn:Hraw.
    + destruct (json_Unmarshal_mqRaw section) as [raw|err] eqn:Hmq.
      * rewrite (LoadConfig_overlay e data section raw Hread Hraw Hmq).
        destruct (mqRaw.PollInterval raw) as [s|] eqn:Hpoll.
        -- destruct (time.ParseDuration s) as [d|perr] eqn:Hparse;
             cbn [fst snd].
           ++ split; [|congruence]. split; [intros _|reflexivity].
              right; right. exists data, section, raw.
              repeat split; try assumption. right. now exists s, d.
           ++ split.
              ** split; [discriminate|]. load_refused.
              ** intros _. right. now exists data, section, raw, s, perr.
        -- cbn [fst snd]. split; [|congruence]. split; [intros _|reflexivity].
           right; right. exists data, section, raw.
           repeat split; try assumption. now left.
      * unfold LoadConfig. fold (configPath e). rewrite Hread, Hraw, Hmq.
        cbn [fst snd]. split; [|now left]. split; [discriminate|].
        load_refused.
    + unfold LoadConfig. fold (configPath e). rewrite Hread, Hraw.
      cbn [fst snd]. split; [|congruence]. split; [intros _|reflexivity].
      right; left. now exists data.
    + unfold LoadConfig. fold (configPath e). rewrite Hread, Hraw.
      cbn [fst snd]. split; [|now left]. split; [discriminate|].
      load_refused.
  - unfold LoadConfig. fold (configPath e). rewrite Hread.
    destruct (os_IsNotExist err) eqn:Hne; cbn [fst snd].
    + split; [|congruence]. split; [intros _|reflexivity].
      left. now exists err.
    + split; [|now left]. split; [discriminate|]. load_refused.
Qed.

(** X4. [LoadConfig] is not atomic on a poll interval that does not parse:
    it returns the error, yet every other key of the section has already
    been assigned; only the poll interval keeps its value. *)
Theorem LoadConfig_partial_on_bad_interval {env : Env}
        (e : Engineer) (data section : bytes) (raw : mqRaw.t)
        (s : string) (perr : error) :
  os_ReadFile (configPath e) = Ok data ->
  json_Unmarshal_rawConfig data = Ok (Some section) ->
  json_Unmarshal_mqRaw section = Ok raw ->
  mqRaw.PollInterval raw = Some s ->
  time.ParseDuration s = Err perr ->
  fst (LoadConfig e) <> None
  /\ config (snd (LoadConfig e)) = overlay raw None (config e)
  /\ PollInterval (config (snd (LoadConfig e))) = PollInterval (config e)
  /\ (forall v, mqRaw.Enabled raw = Some v ->
                Enabled (config (snd (LoadConfig e))) = v)
  /\ (forall v, mqRaw.TargetBranch raw = Some v ->
                TargetBranch (config (snd (LoadConfig e))) = v)
  /\ (forall v, mqRaw.OnConflict raw = Some v ->
                OnConflict (config (snd (LoadConfig e))) = v).
Proof.
  intros Hread Hraw Hmq Hpoll Hparse.
  rewrite (LoadConfig_overlay e data section raw Hread Hraw Hmq).
  rewrite Hpoll, Hparse. cbn [fst snd config with_config].
  split; [discriminate|]. split; [reflexivity|]. split; [reflexivity|].
  repeat split; intros v Hv; cbn; now rewrite Hv.
Qed.

(** ** Every cycle, whatever the tracker answers *)

Section CycleShapes.

Context {env : Env} {T : Type} {tracker : Tracker T}.

(** The five ways a cycle can go. *)
Lemma processOnce_cases (e : Engineer) (ctx : Context) (t : T) :
  (Done ctx = true /\ processOnce e ctx t = (None, t, []))
  \/ (Done ctx = false
      /\ exists err t1,
          ReadyWithType "merge-request" t = (Err err, t1)
          /\ processOnce e ctx t =
               (Some (Errorf_w "querying ready merge-requests: " err), t1,
                [EvReadyWithType "merge-request"]))
  \/ (Done ctx = false
      /\ exists t1,
          ReadyWithType "merge-request" t = (Ok [], t1)
          /\ processOnce e ctx t =
               (None, t1, [EvReadyWithType "merge-request"]))
  \/ (Done ctx = false
      /\ exists mr rest t1 err t2,
          ReadyWithType "merge-request" t = (Ok (mr :: rest), t1)
          /\ Update (ID mr) (with_status "in_progress") t1 = (Some err, t2)
          /\ processOnce e ctx t =
               (Some (Errorf_w ("claiming MR " +++ ID mr +++ ": ") err), t2,
                claimed_prefix mr))
  \/ (Done ctx = false
      /\ exists mr rest t1 t2 pevs logged,
          ReadyWithType "merge-request" t = (Ok (mr :: rest), t1)
          /\ Update (ID mr) (with_status "in_progress") t1 = (None, t2)
          /\ List.forallb is_print pevs = true
          /\ List.forallb is_print logged = true
          /\ processOnce e ctx t =
               (None, snd (Update (ID mr) (with_status "open") t2),
                claimed_prefix mr ++ (EvProcessMR (ID mr) :: pevs)
                  ++ reopen_of mr :: logged)).
Proof.
  destruct (Done ctx) eqn:Hctx.
  { left. split; [reflexivity|]. unfold processOnce, processOnceWith.
    now rewrite Hctx. }
  right.
  destruct (ReadyWithType "merge-request" t) as [[[|mr rest]|err] t1]
    eqn:Hready.
  - right; left. split; [reflexivity|]. exists t1. split; [reflexivity|].
    unfold processOnce, processOnceWith, bind, ret, call_ReadyWithType.
    now rewrite Hctx, Hready.
  - right; right.
    destruct (Update (ID mr) (with_status "in_progress") t1)
      as [[err|] t2] eqn:Hclaim.
    + left. split; [reflexivity|]. exists mr, rest, t1, err, t2.
      repeat split; try assumption. unfold processOnce.
      exact (processOnceWith_claim_rejected ProcessMR e ctx mr rest t t1 t2
               Hctx Hready err Hclaim).
    + right. split; [reflexivity|].
      destruct (ProcessMR_fails e ctx mr t2)
        as (r & pevs & Hp & Hs & _ & _ & _ & _ & Hpevs).
      destruct (handleFailure_then_prints e mr r t2)
        as (logged & Hh & Hlogged).
      exists mr, rest, t1, t2, pevs, logged.
      repeat split; try assumption. unfold processOnce.
      rewrite (processOnceWith_failure ProcessMR e ctx mr rest t t1 t2 t2 r
                 (EvProcessMR (ID mr) :: pevs) Hctx Hready Hclaim Hp Hs), Hh.
      now rewrite handleFailure_steps.
  - left. split; [reflexivity|]. exists err, t1. split; [reflexivity|].
    unfold processOnce, processOnceWith, bind, ret, call_ReadyWithType.
    now rewrite Hctx, Hready.
Qed.

(** Membership in a list of printed lines. *)
Lemma in_prints (l : list Event) (ev : Event) :
  List.forallb is_print l = true -> List.In ev l -> is_print ev = true.
Proof.
  intros Hl Hin. rewrite List.forallb_forall in Hl. now apply Hl.
Qed.

End CycleShapes.

(** X5. Whatever the tracker answers, the tracker calls of a cycle that can
    change an item are at most two, none is a close, and each one is on
    the item at index 0 of the ready list: its claim or its reopen.  No
    other item is ever touched. *)
Theorem processOnce_touches_first_only
        {env : Env} {T : Type} {tracker : Tracker T}
        (e : Engineer) (ctx : Context) (t : T) :
  (count_events is_mutation (snd (processOnce e ctx t)) <= 2)%nat
  /\ count_events is_close (snd (processOnce e ctx t)) = 0%nat
  /\ forall ev,
      List.In ev (snd (processOnce e ctx t)) ->
      is_mutation ev = true ->
      exists mr rest t1,
        ReadyWithType "merge-request" t = (Ok (mr :: rest), t1)
        /\ (ev = claim_of mr \/ ev = reopen_of mr).
Proof.
  destruct (processOnce_cases e ctx t)
    as [(_ & H) | [(_ & err & t1 & _ & H) | [(_ & t1 & _ & H)
       | [(_ & mr & rest & t1 & err & t2 & Hready & _ & H)
         | (_ & mr & rest & t1 & t2 & pevs & logged & Hready & _
            & Hpevs & Hlogged & H)]]]];
    rewrite H; cbn [snd].
  - split; [cbn; lia|]. split; [reflexivity|]. intros ev [].
  - split; [cbn; lia|]. split; [reflexivity|].
    intros ev [<-|[]]; discriminate.
  - split; [cbn; lia|]. split; [reflexivity|].
    intros ev [<-|[]]; discriminate.
  - split; [cbn; lia|]. split; [reflexivity|].
    intros ev [<-|[<-|[<-|[]]]]; try discriminate.
    intros _. exists mr, rest, t1. split; [assumption | now left].
  - split; [|split].
    + replace (count_events is_mutation _) with 2%nat; [lia|].
      symmetry. count_cycle.
    + count_cycle.
    + intros ev Hin Hmut. exists mr, rest, t1. split; [assumption|].
      unfold claimed_prefix in Hin.
      apply List.in_app_or in Hin as [[<-|[<-|[<-|[]]]] | Hin];
        try discriminate; [now left|].
      apply List.in_app_or in Hin as [[<-|Hin] | [<-|Hin]];
        try discriminate; [| now right |].
      * pose proof (in_prints pevs ev Hpevs Hin) as Hp.
        destruct ev; discriminate.
      * pose proof (in_prints logged ev Hlogged Hin) as Hp.
        destruct ev; discriminate.
Qed.

(** X6. A cycle returns an error exactly when its context is live and the
    ready query fails, or the claim of the first ready item is rejected.
    A rejected reopen is never returned; a cycle on a cancelled context
    returns no error, calls nothing and prints nothing. *)
Theorem processOnce_error_iff
        {env : Env} {T : Type} {tracker : Tracker T}
        (e : Engineer) (ctx : Context) (t : T) :
  (fst (fst (processOnce e ctx t)) <> None <->
   Done ctx = false
   /\ ((exists err t1, ReadyWithType "merge-request" t = (Err err, t1))
       \/ (exists mr rest t1 err t2,
              ReadyWithType "merge-request" t = (Ok (mr :: rest), t1)
              /\ Update (ID mr) (with_status "in_progress") t1
                 = (Some err, t2))))
  /\ (Done ctx = true -> processOnce e ctx t = (None, t, [])).
Proof.
  destruct (processOnce_cases e ctx t)
    as [(Hctx & H) | [(Hctx & err & t1 & Hready & H) | [(Hctx & t1 & Hready & H)
       | [(Hctx & mr & rest & t1 & err & t2 & Hready & Hclaim & H)
         | (Hctx & mr & rest & t1 & t2 & pevs & logged & Hready & Hclaim
            & _ & _ & H)]]]];
    rewrite H; cbn [fst]; (split; [|congruence]); split;
    try (intros Hne; now contradiction Hne); try discriminate.
  - intros (Hlive & _). congruence.
  - intros _. split; [assumption|]. left. now exists err, t1.
  - intros (_ & [(err & t1' & H') | (mr & rest & t1' & err & t2 & H' & _)]);
      congruence.
  - intros _. split; [assumption|]. right. now exists mr, rest, t1, err, t2.
  - intros (_ & [(err & t1' & H')
                | (mr' & rest' & t1' & err & t2' & H' & H'')]);
      [congruence|].
    assert (mr' = mr) by congruence. assert (t1' = t1) by congruence.
    subst. congruence.
Qed.

(** X7. The failure handler treats every failed result alike: whatever the
    conflict flag, the tests-failed flag and the error are, under any
    engineer, it makes the same reopen call, leaves the tracker in the
    same state and logs the same warning, if any; the results show only in
    the last line it prints. *)
Theorem handleFailure_ignores_failure_class
        {env : Env} {T : Type} {tracker : Tracker T}
        (e e' : Engineer) (mr : Issue) (r r' : ProcessResult) (t : T) :
  exists st warned,
    handleFailure e mr r t =
      (tt, st, reopen_of mr :: warned ++ [failed_line mr r])
    /\ handleFailure e' mr r' t =
         (tt, st, reopen_of mr :: warned ++ [failed_line mr r'])
    /\ List.forallb is_print warned = true.
Proof.
  rewrite !handleFailure_steps.
  destruct (fst (Update (ID mr) (with_status "open") t)) as [err|].
  - eexists; exists [reopen_warning mr err]. now repeat split.
  - eexists; exists []. now repeat split.
Qed.

(** X8. What [ProcessMR] returns and prints depends on the item alone, not
    on the engineer, its configuration, the context or the tracker, which
    it leaves as it is.  Its error text tells an item whose description
    carries no merge-request fields from one that carries them. *)
Theorem ProcessMR_depends_on_item_only
        {env : Env} {T : Type} {tracker : Tracker T}
        (e e' : Engineer) (ctx ctx' : Context) (mr : Issue) (t t' : T) :
  fst (fst (ProcessMR e ctx mr t)) = fst (fst (ProcessMR e' ctx' mr t'))
  /\ snd (ProcessMR e ctx mr t) = snd (ProcessMR e' ctx' mr t')
  /\ snd (fst (ProcessMR e ctx mr t)) = t
  /\ (Error (fst (fst (ProcessMR e ctx mr t)))
      = "no MR fields found in description"
      <-> ParseMRFields mr = None)
  /\ (forall fields,
         ParseMRFields mr = Some fields ->
         snd (ProcessMR e ctx mr t) =
           [EvProcessMR (ID mr);
            EvPrint ("[Engineer] Would process:" +++ nl);
            EvPrint ("  Branch: " +++ Branch fields +++ nl);
            EvPrint ("  Target: " +++ Target fields +++ nl);
            EvPrint ("  Worker: " +++ Worker fields +++ nl)]).
Proof.
  unfold ProcessMR, bind, ret, print, emit.
  destruct (ParseMRFields mr) as [fields|]; cbn.
  - repeat split; try discriminate.
    intros fields' H. now injection H as <-.
  - repeat split; discriminate.
Qed.

(** X9. Every claimed item gets exactly one reconciling tracker call, right
    after the pipeline and chosen by the success flag alone: the close
    with the merge reason if the result is a success, the update to [open]
    if it is not.  It is the only tracker call after the pipeline, and the
    cycle returns no error whether the tracker accepts it or not. *)
Theorem processOnceWith_reconciles_once
        {env : Env} {T : Type} {tracker : Tracker T}
        (pipeline : Engineer -> Context -> Issue -> M T ProcessResult)
        (e : Engineer) (ctx : Context) (mr : Issue) (rest : list Issue)
        (t t1 t2 t3 : T) (result : ProcessResult) (pevs : list Event) :
  Done ctx = false ->
  ReadyWithType "merge-request" t = (Ok (mr :: rest), t1) ->
  Update (ID mr) (with_status "in_progress") t1 = (None, t2) ->
  pipeline e ctx mr t2 = (result, t3, pevs) ->
  exists t' logged,
    processOnceWith pipeline e ctx t =
      (None, t',
       claimed_prefix mr ++ pevs
         ++ (if Success result
             then EvCloseWithReason ("merged: " +++ MergeCommit result) [ID mr]
             else reopen_of mr) :: logged)
    /\ List.forallb is_print logged = true
    /\ t' = snd (if Success result
                 then CloseWithReason ("merged: " +++ MergeCommit result)
                        [ID mr] t3
                 else Update (ID mr) (with_status "open") t3).
Proof.
  intros Hctx Hready Hclaim Hpipe.
  destruct (Success result) eqn:Hs.
  - rewrite (processOnceWith_success pipeline e ctx mr rest t t1 t2 t3 result
               pevs Hctx Hready Hclaim Hpipe Hs).
    destruct (fst (CloseWithReason ("merged: " +++ MergeCommit result)
                     [ID mr] t3));
      eexists; eexists; split; try reflexivity; now split.
  - rewrite (processOnceWith_failure pipeline e ctx mr rest t t1 t2 t3 result
               pevs Hctx Hready Hclaim Hpipe Hs).
    rewrite handleFailure_steps. cbn [fst snd].
    destruct (fst (Update (ID mr) (with_status "open") t3));
      eexists; eexists; split; try reflexivity; now split.
Qed.

(** ** The scheduler loop *)

Section Loop.

Context {env : Env} {T : Type} {tracker : Tracker T}.

(** A cycle of the loop is a cycle of [processOnce] and, if it returned an
    error, the line that logs it. *)
Lemma run_cycle_steps (e : Engineer) (ctx : Context) (t : T) :
  run_cycle e ctx t =
    (tt, snd (fst (processOnce e ctx t)),
     snd (processOnce e ctx t)
       ++ match fst (fst (processOnce e ctx t)) with
          | Some err =>
              [EvPrint ("[Engineer] Error: " +++ error_text err +++ nl)]
          | None => []
          end).
Proof.
  unfold run_cycle, bind, ret, print, emit.
  destruct (processOnce e ctx t) as [[[err|] t1] evs]; reflexivity.
Qed.

(** The loop on a tick, and on a shutdown wake-up. *)
Lemma run_loop_tick (e : Engineer) (ctx : Context) (ws : list Wakeup) (t : T) :
  run_loop e (wake_tick ctx :: ws) t =
    (fst (fst (run_loop e ws (snd (fst (run_cycle e ctx t))))),
     snd (fst (run_loop e ws (snd (fst (run_cycle e ctx t))))),
     snd (run_cycle e ctx t)
       ++ snd (run_loop e ws (snd (fst (run_cycle e ctx t))))).
Proof.
  cbn [run_loop]. unfold bind at 1.
  destruct (run_cycle e ctx t) as [[[] t1] evs1]. cbn [fst snd].
  now destruct (run_loop e ws t1) as [[out t2] evs2].
Qed.

Lemma run_loop_shutdown (e : Engineer) (w : Wakeup) (ws : list Wakeup)
      (t : T) :
  is_shutdown w = true ->
  exists line,
    run_loop e (w :: ws) t = (Returned None, t, [EvPrint line; EvTickerStop]).
Proof. destruct w; try discriminate; intros _; eexists; reflexivity. Qed.

(** What a cycle of the loop counts for: a ready query if its context is
    live, and nothing of the ticker. *)
Lemma run_cycle_counts (e : Engineer) (ctx : Context) (t : T) :
  count_events is_ready (snd (run_cycle e ctx t))
  = (if Done ctx then 0 else 1)%nat
  /\ count_events is_new_ticker (snd (run_cycle e ctx t)) = 0%nat
  /\ count_events is_ticker_stop (snd (run_cycle e ctx t)) = 0%nat.
Proof.
  rewrite run_cycle_steps. cbn [snd].
  assert (Hlog : forall p : Event -> bool,
             (forall text, p (EvPrint text) = false) ->
             count_events p
               match fst (fst (processOnce e ctx t)) with
               | Some err =>
                   [EvPrint ("[Engineer] Error: " +++ error_text err +++ nl)]
               | None => []
               end = 0%nat).
  { intros p Hp. destruct (fst (fst (processOnce e ctx t)));
      [|reflexivity]. rewrite count_events_cons, Hp. reflexivity. }
  rewrite !count_events_app, !Hlog by reflexivity.
  destruct (processOnce_cases e ctx t)
    as [(Hctx & H) | [(Hctx & err & t1 & _ & H) | [(Hctx & t1 & _ & H)
       | [(Hctx & mr & rest & t1 & err & t2 & _ & _ & H)
         | (Hctx & mr & rest & t1 & t2 & pevs & logged & _ & _
            & Hpevs & Hlogged & H)]]]];
    rewrite H, Hctx; cbn [snd]; repeat split; try reflexivity; count_cycle.
Qed.

(** The loop ends by returning no error or goes on waiting; it never
    returns an error and never panics. *)
Lemma run_loop_outcome (e : Engineer) (ws : list Wakeup) :
  forall t,
    (fst (fst (run_loop e ws t)) = Returned None
     /\ List.existsb is_shutdown ws = true)
    \/ (fst (fst (run_loop e ws t)) = Waiting
        /\ List.existsb is_shutdown ws = false).
Proof.
  induction ws as [|w ws IH]; intros t.
  - right. now split.
  - destruct w as [| |ctx].
    + left. now split.
    + left. now split.
    + rewrite run_loop_tick. cbn [fst snd List.existsb is_shutdown orb].
      apply IH.
Qed.

(** [Run] once the configuration is loaded, enabled and has a positive
    interval: the starting line, the ticker, a first cycle, the loop. *)
Lemma Run_started (e e' : Engineer) (ctx : Context) (ws : list Wakeup)
      (t : T) :
  LoadConfig e = (None, e') ->
  Enabled (config e') = true ->
  0 < PollInterval (config e') ->
  Run e ctx ws t =
    (fst (fst (run_loop e' ws (snd (fst (run_cycle e' ctx t))))), e',
     snd (fst (run_loop e' ws (snd (fst (run_cycle e' ctx t))))),
     starting_line e' :: EvNewTicker (PollInterval (config e'))
       :: snd (run_cycle e' ctx t)
       ++ snd (run_loop e' ws (snd (fst (run_cycle e' ctx t))))).
Proof.
  intros Hload Hen Hpos. unfold Run. rewrite Hload, Hen. cbn [negb].
  destruct (PollInterval (config e') <=? 0) eqn:Hle;
    [apply Z.leb_le in Hle; lia|].
  unfold bind, ret, print, emit.
  destruct (run_cycle e' ctx t) as [[[] t1] evs1]. cbn [fst snd].
  destruct (run_loop e' ws t1) as [[out t2] evs2]. cbn [fst snd app].
  now rewrite List.app_nil_r.
Qed.

End Loop.

Section LoopFacts.

Context {env : Env} {T : Type} {tracker : Tracker T}.

(** The loop creates no ticker; it stops the ticker once if a shutdown
    wake-up reaches it, as its last event, and not at all otherwise. *)
Lemma run_loop_ticker (e : Engineer) (ws : list Wakeup) :
  forall t,
    count_events is_new_ticker (snd (run_loop e ws t)) = 0%nat
    /\ count_events is_ticker_stop (snd (run_loop e ws t))
       = (if List.existsb is_shutdown ws then 1 else 0)%nat
    /\ (List.existsb is_shutdown ws = true ->
        exists before, snd (run_loop e ws t) = before ++ [EvTickerStop]).
Proof.
  induction ws as [|w ws IH]; intros t.
  - repeat split. discriminate.
  - destruct w as [| |ctx].
    + repeat split. intros _. now eexists [_].
    + repeat split. intros _. now eexists [_].
    + rewrite run_loop_tick. cbn [fst snd List.existsb is_shutdown orb].
      destruct (run_cycle_counts e ctx t) as (_ & Hnew & Hstop).
      destruct (IH (snd (fst (run_cycle e ctx t)))) as (IHnew & IHstop & IHend).
      rewrite !count_events_app, Hnew, Hstop, IHnew, IHstop.
      repeat split. intros Hsh. destruct (IHend Hsh) as (before & ->).
      exists (snd (run_cycle e ctx t) ++ before).
      now rewrite List.app_assoc.
Qed.

(** The loop queries the tracker once for each tick with a live context
    that comes before the first shutdown wake-up. *)
Lemma run_loop_ready (e : Engineer) (ws : list Wakeup) :
  forall t,
    count_events is_ready (snd (run_loop e ws t))
    = live_cycles (ticks_before_shutdown ws).
Proof.
  induction ws as [|w ws IH]; intros t; [reflexivity|].
  destruct w as [| |ctx]; [reflexivity | reflexivity |].
  rewrite run_loop_tick. cbn [fst snd ticks_before_shutdown].
  destruct (run_cycle_counts e ctx t) as (Hready & _).
  rewrite count_events_app, Hready, IH.
  unfold live_cycles. cbn [List.filter]. now destruct (Done ctx).
Qed.

(** The loop stops at the first shutdown wake-up. *)
Lemma run_loop_stops (e : Engineer) (w : Wakeup) (rest : list Wakeup) :
  is_shutdown w = true ->
  forall pre t,
    run_loop e (pre ++ w :: rest) t = run_loop e (pre ++ [w]) t.
Proof.
  intros Hw pre. induction pre as [|w' pre IH]; intros t.
  - destruct w; try discriminate; reflexivity.
  - destruct w' as [| |ctx]; try reflexivity.
    cbn [app]. rewrite !run_loop_tick. now rewrite IH.
Qed.

(** The stop signal and the cancellation end the loop alike, but for the
    line printed. *)
Lemma run_loop_stop_or_cancel (e : Engineer) (pre : list Wakeup) :
  forall t,
    fst (run_loop e (pre ++ [wake_stop]) t)
    = fst (run_loop e (pre ++ [wake_ctx_done]) t)
    /\ List.filter (fun ev => negb (is_print ev))
         (snd (run_loop e (pre ++ [wake_stop]) t))
       = List.filter (fun ev => negb (is_print ev))
           (snd (run_loop e (pre ++ [wake_ctx_done]) t)).
Proof.
  induction pre as [|w pre IH]; intros t.
  - now split.
  - destruct w as [| |ctx]; try now split.
    cbn [app]. rewrite !run_loop_tick. cbn [fst snd].
    destruct (IH (snd (fst (run_cycle e ctx t)))) as (IH1 & IH2).
    split.
    + now rewrite (surjective_pairing
                     (fst (run_loop e (pre ++ [wake_stop])
                             (snd (fst (run_cycle e ctx t)))))),
        (surjective_pairing
           (fst (run_loop e (pre ++ [wake_ctx_done])
                   (snd (fst (run_cycle e ctx t)))))) in IH1;
        injection IH1 as -> ->.
    + now rewrite !List.filter_app, IH2.
Qed.

End LoopFacts.

(** X10. How [Run] can end.  It returns an error only at startup, for a
    configuration that fails to load or is disabled, before it prints
    anything or calls the tracker; it panics only on a non-positive poll
    interval, after the starting line; otherwise it returns no error if a
    shutdown wake-up reaches it and goes on waiting if none does.  No
    error of a cycle ever becomes the result of [Run], and the engineer
    afterwards is the one [LoadConfig] left. *)
Theorem Run_outcome
        {env : Env} {T : Type} {tracker : Tracker T}
        (e : Engineer) (ctx : Context) (ws : list Wakeup) (t : T) :
  snd (fst (fst (Run e ctx ws t))) = snd (LoadConfig e)
  /\ match fst (fst (fst (Run e ctx ws t))) with
     | Returned (Some err) =>
         snd (Run e ctx ws t) = []
         /\ snd (fst (Run e ctx ws t)) = t
         /\ ((exists cause,
                 fst (LoadConfig e) = Some cause
                 /\ err = Errorf_w "loading config: " cause)
             \/ (fst (LoadConfig e) = None
                 /\ Enabled (config (snd (LoadConfig e))) = false
                 /\ err = errorString
                            "merge queue is disabled in configuration"))
     | Panicked msg =>
         fst (LoadConfig e) = None
         /\ Enabled (config (snd (LoadConfig e))) = true
         /\ PollInterval (config (snd (LoadConfig e))) <= 0
         /\ snd (Run e ctx ws t) = [starting_line (snd (LoadConfig e))]
         /\ snd (fst (Run e ctx ws t)) = t
     | Returned None =>
         fst (LoadConfig e) = None
         /\ Enabled (config (snd (LoadConfig e))) = true
         /\ 0 < PollInterval (config (snd (LoadConfig e)))
         /\ List.existsb is_shutdown ws = true
     | Waiting =>
         fst (LoadConfig e) = None
         /\ Enabled (config (snd (LoadConfig e))) = true
         /\ 0 < PollInterval (config (snd (LoadConfig e)))
         /\ List.existsb is_shutdown ws = false
     end.
Proof.
  destruct (LoadConfig e) as [[cause|] e'] eqn:Hload; cbn [fst snd].
  - unfold Run. rewrite Hload. cbn. split; [reflexivity|].
    repeat split. left. now exists cause.
  - destruct (Enabled (config e')) eqn:Hen.
    + destruct (PollInterval (config e') <=? 0) eqn:Hle.
      * unfold Run. rewrite Hload, Hen, Hle. cbn.
        apply Z.leb_le in Hle. now repeat split.
      * apply Z.leb_gt in Hle.
        rewrite (Run_started e e' ctx ws t Hload Hen Hle). cbn [fst snd].
        split; [reflexivity|].
        destruct (run_loop_outcome e' ws (snd (fst (run_cycle e' ctx t))))
          as [(-> & Hsh) | (-> & Hsh)]; now repeat split.
    + unfold Run. rewrite Hload, Hen. cbn. split; [reflexivity|].
      repeat split. now right.
Qed.

(** X11. The ticker of [Run].  A run that returns no error has created one
    ticker and stopped it once, as the last thing it did; a run that is
    still waiting has created one and not stopped it; a run that returns
    an error or panics has created none. *)
Theorem Run_ticker
        {env : Env} {T : Type} {tracker : Tracker T}
        (e : Engineer) (ctx : Context) (ws : list Wakeup) (t : T) :
  match fst (fst (fst (Run e ctx ws t))) with
  | Returned None =>
      count_events is_new_ticker (snd (Run e ctx ws t)) = 1%nat
      /\ count_events is_ticker_stop (snd (Run e ctx ws t)) = 1%nat
      /\ exists before, snd (Run e ctx ws t) = before ++ [EvTickerStop]
  | Waiting =>
      count_events is_new_ticker (snd (Run e ctx ws t)) = 1%nat
      /\ count_events is_ticker_stop (snd (Run e ctx ws t)) = 0%nat
  | Returned (Some _) | Panicked _ =>
      count_events is_new_ticker (snd (Run e ctx ws t)) = 0%nat
      /\ count_events is_ticker_stop (snd (Run e ctx ws t)) = 0%nat
  end.
Proof.
  destruct (LoadConfig e) as [[cause|] e'] eqn:Hload.
  - unfold Run. rewrite Hload. now cbn.
  - destruct (Enabled (config e')) eqn:Hen.
    + destruct (PollInterval (config e') <=? 0) eqn:Hle.
      * unfold Run. rewrite Hload, Hen, Hle. now cbn.
      * apply Z.leb_gt in Hle.
        rewrite (Run_started e e' ctx ws t Hload Hen Hle). cbn [fst snd].
        destruct (run_cycle_counts e' ctx t) as (_ & Hnew & Hstop).
        destruct (run_loop_ticker e' ws (snd (fst (run_cycle e' ctx t))))
          as (Lnew & Lstop & Lend).
        rewrite !count_events_cons, !count_events_app, Hnew, Hstop, Lnew, Lstop.
        destruct (run_loop_outcome e' ws (snd (fst (run_cycle e' ctx t))))
          as [(-> & Hsh) | (-> & Hsh)]; rewrite Hsh; cbn.
        -- repeat split. destruct (Lend Hsh) as (before & ->).
           exists (starting_line e' :: EvNewTicker (PollInterval (config e'))
                     :: snd (run_cycle e' ctx t) ++ before).
           cbn [app]. now rewrite List.app_assoc.
        -- now split.
    + unfold Run. rewrite Hload, Hen. now cbn.
Qed.

(** X12. [Run] ends at the first shutdown wake-up: the wake-ups after it
    start no cycle and change nothing.  The stop signal and the
    cancellation of the context end it alike: same result, same engineer,
    same tracker, same events but for the lines printed. *)
Theorem Run_stops_at_first_shutdown
        {env : Env} {T : Type} {tracker : Tracker T}
        (e : Engineer) (ctx : Context) (pre rest : list Wakeup)
        (w : Wakeup) (t : T) :
  is_shutdown w = true ->
  Run e ctx (pre ++ w :: rest) t = Run e ctx (pre ++ [w]) t
  /\ fst (Run e ctx (pre ++ [wake_stop]) t)
     = fst (Run e ctx (pre ++ [wake_ctx_done]) t)
  /\ List.filter (fun ev => negb (is_print ev))
       (snd (Run e ctx (pre ++ [wake_stop]) t))
     = List.filter (fun ev => negb (is_print ev))
         (snd (Run e ctx (pre ++ [wake_ctx_done]) t)).
Proof.
  intros Hw.
  destruct (LoadConfig e) as [[cause|] e'] eqn:Hload.
  { unfold Run. rewrite Hload. now repeat split. }
  destruct (Enabled (config e')) eqn:Hen;
    [|unfold Run; rewrite Hload, Hen; now repeat split].
  destruct (PollInterval (config e') <=? 0) eqn:Hle;
    [unfold Run; rewrite Hload, Hen, Hle; now repeat split|].
  apply Z.leb_gt in Hle.
  rewrite !(Run_started e e' ctx _ t Hload Hen Hle).
  rewrite (run_loop_stops e' w rest Hw pre).
  split; [reflexivity|].
  destruct (run_loop_stop_or_cancel e' pre (snd (fst (run_cycle e' ctx t))))
    as (H1 & H2).
  cbn [fst snd]. split.
  - now rewrite (surjective_pairing
                   (fst (run_loop e' (pre ++ [wake_stop])
                           (snd (fst (run_cycle e' ctx t)))))),
      (surjective_pairing
         (fst (run_loop e' (pre ++ [wake_ctx_done])
                 (snd (fst (run_cycle e' ctx t)))))) in H1;
      injection H1 as -> ->.
  - cbn [List.filter is_print negb]. now rewrite !List.filter_app, H2.
Qed.

(** X13. A run that starts queries the tracker once for the immediate first
    cycle and once for each tick that comes before the first shutdown
    wake-up, counting only the cycles whose context is live; ticks after
    the shutdown and cycles on a cancelled context query nothing. *)
Theorem Run_queries_once_per_live_cycle
        {env : Env} {T : Type} {tracker : Tracker T}
        (e e' : Engineer) (ctx : Context) (ws : list Wakeup) (t : T) :
  LoadConfig e = (None, e') ->
  Enabled (config e') = true ->
  0 < PollInterval (config e') ->
  count_events is_ready (snd (Run e ctx ws t))
  = live_cycles (ctx :: ticks_before_shutdown ws).
Proof.
  intros Hload Hen Hpos.
  rewrite (Run_started e e' ctx ws t Hload Hen Hpos). cbn [snd].
  destruct (run_cycle_counts e' ctx t) as (Hready & _).
  rewrite !count_events_cons, count_events_app, Hready, run_loop_ready.
  unfold live_cycles. cbn [List.filter is_ready starting_line].
  now destruct (Done ctx).
Qed.

(** X14. A poll interval that parses to zero or less is accepted by
    [LoadConfig] and makes [Run] panic: with the queue enabled, [Run]
    prints its starting line, then creating the ticker panics; no cycle
    runs and the tracker is not called. *)
Theorem Run_panics_on_nonpositive_interval
        {env : Env} {T : Type} {tracker : Tracker T}
        (e : Engineer) (data section : bytes) (raw : mqRaw.t)
        (s : string) (d : time.Duration)
        (ctx : Context) (ws : list Wakeup) (t : T) :
  os_ReadFile (configPath e) = Ok data ->
  json_Unmarshal_rawConfig data = Ok (Some section) ->
  json_Unmarshal_mqRaw section = Ok raw ->
  mqRaw.PollInterval raw = Some s ->
  time.ParseDuration s = Ok d ->
  d <= 0 ->
  or_default (mqRaw.Enabled raw) (Enabled (config e)) = true ->
  let e' := with_config (overlay raw (Some d) (config e)) e in
  LoadConfig e = (None, e')
  /\ Run e ctx ws t =
       (Panicked "non-positive interval for NewTicker", e', t,
        [starting_line e']).
Proof.
  intros Hread Hraw Hmq Hpoll Hparse Hd Hen e'.
  assert (Hload : LoadConfig e = (None, e')).
  { rewrite (LoadConfig_overlay e data section raw Hread Hraw Hmq).
    now rewrite Hpoll, Hparse. }
  split; [exact Hload|].
  unfold Run. rewrite Hload.
  assert (He : Enabled (config e') = true) by exact Hen.
  assert (Hp : (PollInterval (config e') <=? 0) = true)
    by (apply Z.leb_le; exact Hd).
  rewrite He, Hp. reflexivity.
Qed.

(** X15. With no configuration file, [Run] on a new engineer always starts:
    it prints the starting line, creates a ticker of 30 seconds and runs
    the first cycle; it never returns an error and never panics. *)
Theorem Run_starts_on_defaults
        {env : Env} {T : Type} {tracker : Tracker T}
        (r : rig.Rig) (err : error) (ctx : Context) (ws : list Wakeup)
        (t : T) :
  os_ReadFile (configPath (NewEngineer r)) = Err err ->
  os_IsNotExist err = true ->
  exists out t' evs,
    Run (NewEngineer r) ctx ws t =
      (out, NewEngineer r, t',
       starting_line (NewEngineer r) :: EvNewTicker (30 * time.Second)
         :: snd (processOnce (NewEngineer r) ctx t) ++ evs)
    /\ (out = Returned None \/ out = Waiting).
Proof.
  intros Hread Hne.
  assert (Hload : LoadConfig (NewEngineer r) = (None, NewEngineer r)).
  { unfold LoadConfig. fold (configPath (NewEngineer r)).
    now rewrite Hread, Hne. }
  rewrite (Run_started (NewEngineer r) (NewEngineer r) ctx ws t Hload
             eq_refl eq_refl).
  set (t1 := snd (fst (run_cycle (NewEngineer r) ctx t))).
  exists (fst (fst (run_loop (NewEngineer r) ws t1))),
    (snd (fst (run_loop (NewEngineer r) ws t1))),
    (match fst (fst (processOnce (NewEngineer r) ctx t)) with
     | Some err' =>
         [EvPrint ("[Engineer] Error: " +++ error_text err' +++ nl)]
     | None => []
     end ++ snd (run_loop (NewEngineer r) ws t1)).
  split.
  - rewrite List.app_assoc.
    replace (snd (run_cycle (NewEngineer r) ctx t))
      with (snd (processOnce (NewEngineer r) ctx t)
              ++ match fst (fst (processOnce (NewEngineer r) ctx t)) with
                 | Some err' =>
                     [EvPrint ("[Engineer] Error: " +++ error_text err'
                               +++ nl)]
                 | None => []
                 end)
      by now rewrite run_cycle_steps.
    reflexivity.
  - destruct (run_loop_outcome (NewEngineer r) ws t1)
      as [(-> & _) | (-> & _)]; [now left | now right].
Qed.

(** * Worked loads, cycles and runs for the further properties *)

Module WorkedFurther.

Import Reference.

#[local] Existing Instance env0.


(** Witness of X3: the document with a target branch loads. *)
Lemma LoadConfig_succeeds_iff_witness :
  fst (LoadConfig (env := env_of doc_release) (NewEngineer gastown)) = None.
Proof.
  destruct (LoadConfig_succeeds_iff (env := env_of doc_release)
              (NewEngineer gastown)) as ((_ & Hback) & _).
  apply Hback. right; right.
  exists (Some doc_release),
    (Some (JObject [("target_branch", JString "release")])),
    (mqRaw.Build_t None (Some "release") None None None None None None None
       None).
  split; [reflexivity|]. split; [reflexivity|]. split; [reflexivity|].
  left. reflexivity.
Defined.

(** Witness of X4: [{"merge_queue": {"enabled": false, "poll_interval":
    "soon"}}] fails to load and disables the queue all the same. *)
Lemma LoadConfig_partial_on_bad_interval_witness :
  time.ParseDuration "soon" = Err (time.invalid_duration "soon")
  /\ fst (LoadConfig (env := env_of (doc_disabled_poll "soon"))
            (NewEngineer gastown)) <> None
  /\ Enabled (config (snd (LoadConfig (env := env_of (doc_disabled_poll "soon"))
                            (NewEngineer gastown)))) = false.
Proof.
  split; [reflexivity|].
  destruct (LoadConfig_partial_on_bad_interval
              (env := env_of (doc_disabled_poll "soon"))
              (NewEngineer gastown) (Some (doc_disabled_poll "soon"))
              (Some (JObject [("enabled", JBool false);
                              ("poll_interval", JString "soon")]))
              (mqRaw.Build_t (Some false) None None None None None None None
                 (Some "soon") None)
              "soon" (time.invalid_duration "soon")
              ltac:(reflexivity) ltac:(reflexivity) ltac:(reflexivity)
              ltac:(reflexivity) ltac:(reflexivity))
    as (Herr & _ & _ & Hen & _).
  split; [exact Herr|]. exact (Hen false ltac:(reflexivity)).
Defined.

(** Witness of X5: the claim of a cycle on the queue is on its first
    item. *)
Lemma processOnce_touches_first_only_witness :
  exists mr rest t1,
    ReadyWithType "merge-request" queue = (Ok (mr :: rest), t1)
    /\ (claim_of mr1 = claim_of mr \/ claim_of mr1 = reopen_of mr).
Proof.
  destruct (processOnce_touches_first_only (NewEngineer gastown) running queue)
    as (_ & _ & Hfirst).
  apply (Hfirst (claim_of mr1)); [|reflexivity].
  right. right. left. reflexivity.
Defined.

(** Witness of X6: a cycle whose ready query fails returns an error. *)
Lemma processOnce_error_iff_witness :
  fst (fst (processOnce (NewEngineer gastown) running queue_query_fails))
  <> None.
Proof.
  destruct (processOnce_error_iff (NewEngineer gastown) running
              queue_query_fails) as ((_ & Hback) & _).
  apply Hback. split; [reflexivity|]. left.
  eexists; eexists; reflexivity.
Defined.

(** Witness of X9: the merging pipeline on the queue, then the close. *)
Lemma processOnceWith_reconciles_once_witness :
  exists t' logged,
    processOnceWith merging_pipeline (NewEngineer gastown) running queue
    = (None, t',
       claimed_prefix mr1 ++ [EvProcessMR "gt-101"]
         ++ EvCloseWithReason "merged: 4f2a9c1" ["gt-101"] :: logged)
    /\ status_of t' "gt-101" = Some "closed".
Proof.
  destruct (processOnceWith_reconciles_once merging_pipeline
              (NewEngineer gastown) running mr1 [mr2] queue queue
              {| items := [set_status "in_progress" mr1; mr2]; faults := [] |}
              {| items := [set_status "in_progress" mr1; mr2]; faults := [] |}
              {| Success := true; MergeCommit := "4f2a9c1"; Error := "";
                 Conflict := false; TestsFailed := false |}
              [EvProcessMR "gt-101"]
              ltac:(reflexivity) ltac:(reflexivity) ltac:(reflexivity)
              ltac:(reflexivity))
    as (t' & logged & Hrun & _ & Ht).
  exists t', logged. split; [exact Hrun|]. rewrite Ht. reflexivity.
Defined.

(** Witness of X12: a tick after the stop signal changes nothing. *)
Lemma Run_stops_at_first_shutdown_witness :
  is_shutdown wake_stop = true
  /\ Run (NewEngineer gastown) running
       ([wake_tick running] ++ wake_stop :: [wake_tick running]) queue
     = Run (NewEngineer gastown) running ([wake_tick running] ++ [wake_stop])
         queue.
Proof.
  split; [reflexivity|].
  exact (proj1 (Run_stops_at_first_shutdown (NewEngineer gastown) running
                  [wake_tick running] [wake_tick running] wake_stop queue
                  ltac:(reflexivity))).
Defined.

(** Witness of X13: the first cycle and one live tick query the tracker;
    the tick on a cancelled context and the tick after the stop do not. *)
Lemma Run_queries_once_per_live_cycle_witness :
  LoadConfig (NewEngineer gastown) = (None, NewEngineer gastown)
  /\ count_events is_ready
       (snd (Run (NewEngineer gastown) running
               [wake_tick running; wake_tick {| Done := true |}; wake_stop;
                wake_tick running] queue))
     = 2%nat.
Proof.
  split; [reflexivity|].
  exact (Run_queries_once_per_live_cycle (env := env0) (NewEngineer gastown)
           (NewEngineer gastown) running
           [wake_tick running; wake_tick {| Done := true |}; wake_stop;
            wake_tick running] queue
           ltac:(reflexivity) ltac:(reflexivity) ltac:(reflexivity)).
Defined.

(** Witness of X14: [{"merge_queue": {"poll_interval": "-5s"}}]. *)
Lemma Run_panics_on_nonpositive_interval_witness :
  time.ParseDuration "-5s" = Ok (-5000000000)
  /\ fst (fst (fst (Run (env := env_of (doc_poll "-5s")) (NewEngineer gastown)
                      running [wake_tick running; wake_stop] queue)))
     = Panicked "non-positive interval for NewTicker".
Proof.
  split; [reflexivity|].
  destruct (Run_panics_on_nonpositive_interval
              (env := env_of (doc_poll "-5s"))
              (NewEngineer gastown) (Some (doc_poll "-5s"))
              (Some (JObject [("poll_interval", JString "-5s")]))
              (mqRaw.Build_t None None None None None None None None
                 (Some "-5s") None)
              "-5s" (-5000000000) running [wake_tick running; wake_stop] queue
              ltac:(reflexivity) ltac:(reflexivity) ltac:(reflexivity)
              ltac:(reflexivity) ltac:(reflexivity) ltac:(discriminate)
              ltac:(reflexivity))
    as (_ & Hrun).
  rewrite Hrun. reflexivity.
Defined.

(** Witness of X15: no configuration file. *)
Lemma Run_starts_on_defaults_witness :
  os_IsNotExist
    (wrapError "open /rigs/gastown/config.json: no such file or directory"
       ENOENT) = true
  /\ exists out t' evs,
      Run (NewEngineer gastown) running [wake_stop] queue
      = (out, NewEngineer gastown, t',
         starting_line (NewEngineer gastown) :: EvNewTicker 30000000000
           :: snd (processOnce (NewEngineer gastown) running queue) ++ evs)
      /\ (out = Returned None \/ out = Waiting).
Proof.
  split; [reflexivity|].
  exact (Run_starts_on_defaults (env := env0) gastown
           (wrapError
              "open /rigs/gastown/config.json: no such file or directory"
              ENOENT)
           running [wake_stop] queue ltac:(reflexivity) ltac:(reflexivity)).
Defined.

End WorkedFurther.
